(** * easy-sql: a shallow embedding of [easy_sql/sql_helper.py]

    The adapter is a thin layer over two database drivers ([sqlite3] and
    [mysql.connector]).  Every method opens a connection, builds one SQL
    statement by string interpolation, executes it and closes the
    connection.  The embedding keeps that shape:

    - Python values, tuples and dicts are modelled as data ([value],
      [list], association lists in insertion order);
    - the drivers and the operating system are an abstract [Driver]: a
      backend state with [connect], [execute], [commit], [close] and
      [listdir];
    - a method is a computation in the monad [M]: it transforms a [World]
      (backend state, open connections, the chronological log of driver
      calls and printed lines) and either returns or raises. *)

From Stdlib Require Import String Ascii List ZArith Bool Arith Lia.
Import ListNotations.
Local Open Scope string_scope.

(** ** Python data *)

(** Scalars bound as statement parameters and returned in result rows. *)
Inductive value : Type :=
| VNone
| VInt (z : Z)
| VStr (s : string).

(** A result row is a tuple of scalars. *)
Definition row : Type := list value.

(** A [dict] keeps insertion order: [keys()] and [values()] follow it. *)
Definition dict : Type := list (string * value).

Definition keys (data : dict) : list string := map fst data.
Definition values (data : dict) : list value := map snd data.

(** [data[col]] when [col in data]. *)
Fixpoint dict_get (col : string) (data : dict) : option value :=
  match data with
  | [] => None
  | (k, v) :: rest => if String.eqb col k then Some v else dict_get col rest
  end.

(** [col in data]. *)
Definition dict_mem (col : string) (data : dict) : bool :=
  match dict_get col data with Some _ => true | None => false end.

(** The exceptions the methods can meet.  [DriverError] stands for
    [sqlite3.Error] and [mysql.connector.Error] (the only classes the
    [except] clauses name); the others are never caught. *)
Inductive exn : Type :=
| DriverError (msg : string)
| IndexError
| TypeError
| UnboundLocalError.

(** ** The drivers *)

Inductive reply (A : Type) : Type :=
| Done (a : A)
| Failed (msg : string).
Arguments Done {A} a.
Arguments Failed {A} msg.

(** What a connection is opened on: [sqlite3.connect(database)] or
    [mysql.connector.connect(host=, user=, password=[, database=])]. *)
Inductive target : Type :=
| File (path : string)
| Server (host user password : string) (database : option string).

Record Driver : Type := {
  backend : Type;
  drv_listdir : backend -> list string;
  drv_connect : target -> backend -> backend * reply unit;
  drv_execute : string -> list value -> backend -> backend * reply (list row);
  drv_commit : backend -> backend * reply unit;
  drv_close : backend -> backend
}.

(** ** Worlds and computations *)

Inductive event : Type :=
| Connect (t : target)
| Execute (q : string) (ps : list value)
| Commit (c : nat)
| Close (c : nat)
| Print (msg : string).

Record World (d : Driver) : Type := {
  env : backend d;       (* the backend: files, databases, tables *)
  live : list nat;       (* connections opened and not yet closed *)
  fresh : nat;           (* next connection handle *)
  log : list event       (* driver calls and printed lines, oldest first *)
}.
Arguments env {d} w.
Arguments live {d} w.
Arguments fresh {d} w.
Arguments log {d} w.
Arguments Build_World {d} env live fresh log.

Inductive outcome (A : Type) : Type :=
| Ret (a : A)
| Raise (e : exn).
Arguments Ret {A} a.
Arguments Raise {A} e.

Definition M (d : Driver) (A : Type) : Type := World d -> outcome A * World d.

Section Monad.
Context {d : Driver}.

Definition ret {A} (a : A) : M d A := fun w => (Ret a, w).

Definition raise {A} (e : exn) : M d A := fun w => (Raise e, w).

Definition bind {A B} (c : M d A) (k : A -> M d B) : M d B :=
  fun w =>
    match c w with
    | (Ret a, w1) => k a w1
    | (Raise e, w1) => (Raise e, w1)
    end.

(** [try: body except <driver>.Error as e: handler(e)]: only the driver's
    error class is caught. *)
Definition try_except {A} (body : M d A) (handler : string -> M d A) : M d A :=
  fun w =>
    match body w with
    | (Raise (DriverError msg), w1) => handler msg w1
    | other => other
    end.

(** [try: body finally: fin]: [fin] runs on every exit of [body]; an
    exception raised by [fin] replaces the result of [body]. *)
Definition finally {A} (body : M d A) (fin : M d unit) : M d A :=
  fun w =>
    match body w with
    | (r, w1) =>
        match fin w1 with
        | (Ret _, w2) => (r, w2)
        | (Raise e, w2) => (Raise e, w2)
        end
    end.

Definition emit (e : event) (w : World d) : World d :=
  Build_World (env w) (live w) (fresh w) (log w ++ [e]).

Definition print (msg : string) : M d unit := fun w => (Ret tt, emit (Print msg) w).

(** [os.listdir('.')] *)
Definition os_listdir : M d (list string) := fun w => (Ret (drv_listdir d (env w)), w).

(** [connect(...)]: a fresh handle on success, the driver's error otherwise. *)
Definition db_connect (t : target) : M d nat :=
  fun w =>
    match drv_connect d t (env w) with
    | (b, Done _) =>
        (Ret (fresh w),
         Build_World b (fresh w :: live w) (S (fresh w)) (log w ++ [Connect t]))
    | (b, Failed msg) =>
        (Raise (DriverError msg),
         Build_World b (live w) (fresh w) (log w ++ [Connect t]))
    end.

(** [cursor.execute(query, params)]; the rows are what [fetchall] gives. *)
Definition cursor_execute (conn : nat) (query : string) (params : list value)
  : M d (list row) :=
  fun w =>
    match drv_execute d query params (env w) with
    | (b, Done rows) =>
        (Ret rows, Build_World b (live w) (fresh w) (log w ++ [Execute query params]))
    | (b, Failed msg) =>
        (Raise (DriverError msg),
         Build_World b (live w) (fresh w) (log w ++ [Execute query params]))
    end.

(** [conn.commit()] *)
Definition conn_commit (conn : nat) : M d unit :=
  fun w =>
    match drv_commit d (env w) with
    | (b, Done _) =>
        (Ret tt, Build_World b (live w) (fresh w) (log w ++ [Commit conn]))
    | (b, Failed msg) =>
        (Raise (DriverError msg),
         Build_World b (live w) (fresh w) (log w ++ [Commit conn]))
    end.

(** [conn.close()] *)
Definition conn_close (conn : nat) : M d unit :=
  fun w =>
    (Ret tt,
     Build_World (drv_close d (env w))
                 (filter (fun c => negb (Nat.eqb c conn)) (live w))
                 (fresh w) (log w ++ [Close conn])).

(** [conn.close()] (or [if conn: conn.close()]) in a [finally] block whose
    [try] block is where [conn] is assigned: the name is unbound when the
    connection could not be opened. *)
Definition close_var (conn : option nat) : M d unit :=
  match conn with
  | Some c => conn_close c
  | None => raise UnboundLocalError
  end.

(** The idiom
<<
    try:
        conn = connect(...)
        body
    except <driver>.Error as e:
        handler
    finally:
        conn.close()
>> *)
Definition try_connect {A} (t : target) (body : nat -> M d A)
  (handler : string -> M d A) : M d A :=
  fun w =>
    match db_connect t w with
    | (Ret c, w1) => finally (try_except (body c) handler) (close_var (Some c)) w1
    | (Raise e, w1) => finally (try_except (raise e) handler) (close_var None) w1
    end.

End Monad.

Declare Scope py_scope.
Delimit Scope py_scope with py.
Notation "x <- c ;; k" := (bind c (fun x => k))
  (at level 61, c at next level, right associativity) : py_scope.
Notation "c ;; k" := (bind c (fun _ => k))
  (at level 61, right associativity) : py_scope.
Local Open Scope py_scope.

(** ** Python helpers *)

(** [sep.join(parts)] *)
Definition join (sep : string) (parts : list string) : string := String.concat sep parts.

(** [[x] * n] *)
Definition times {A} (x : A) (n : nat) : list A := repeat x n.

(** Truthiness of a list, of [None]-or-list and of [None]-or-str. *)
Definition truthy_list {A} (l : list A) : bool :=
  match l with [] => false | _ :: _ => true end.

Definition truthy_opt_list {A} (l : option (list A)) : bool :=
  match l with Some (_ :: _) => true | _ => false end.

Definition truthy_opt_str (s : option string) : bool :=
  match s with Some (String _ _) => true | _ => false end.

Definition nl : string := String (ascii_of_nat 10) EmptyString.

Section Helpers.
Context {d : Driver}.

(** [t[i]] on a tuple. *)
Definition tuple_get {A} (t : list A) (i : nat) : M d A :=
  match nth_error t i with
  | Some x => ret x
  | None => raise IndexError
  end.

(** [cursor.fetchone()[0]]: [fetchone()] is [None] when there is no row. *)
Definition fetchone_0 (rows : list row) : M d value :=
  match rows with
  | [] => raise TypeError
  | r :: _ => tuple_get r 0
  end.

(** [count > 0] *)
Definition gt_zero (count : value) : M d bool :=
  match count with
  | VInt z => ret (0 <? z)%Z
  | _ => raise TypeError
  end.

End Helpers.

(** [f"{name} {type} {constraints}"] for a column tuple. *)
Definition column_definition {d} (column : list string) : M d string :=
  c0 <- tuple_get column 0 ;;
  c1 <- tuple_get column 1 ;;
  c2 <- tuple_get column 2 ;;
  ret (c0 ++ " " ++ c1 ++ " " ++ c2).

(** [f"FOREIGN KEY ({fk[0]}) REFERENCES {fk[1]}({fk[2]})"] for a foreign-key tuple. *)
Definition foreign_key_definition {d} (fk : list string) : M d string :=
  f0 <- tuple_get fk 0 ;;
  f1 <- tuple_get fk 1 ;;
  f2 <- tuple_get fk 2 ;;
  ret ("FOREIGN KEY (" ++ f0 ++ ") REFERENCES " ++ f1 ++ "(" ++ f2 ++ ")").

(** [for x in xs: acc.append(f(x))] *)
Fixpoint append_each {d A B} (f : A -> M d B) (xs : list A) (acc : list B)
  : M d (list B) :=
  match xs with
  | [] => ret acc
  | x :: rest => y <- f x ;; append_each f rest (acc ++ [y])
  end.

(** [[f(x) for x in xs]] *)
Definition comprehension {d A B} (f : A -> M d B) (xs : list A) : M d (list B) :=
  append_each f xs [].

(** *** [repr] and [str] of a list of strings

    A character of a [string] is read as the code point of the same
    number (Latin-1).  [repr] quotes with an apostrophe unless the text has
    an apostrophe and no double quote, escapes the quote, the backslash,
    tab, newline and carriage return, and writes the other non-printable
    code points in hexadecimal. *)
Definition dquote : ascii := ascii_of_nat 34.
Definition squote : ascii := ascii_of_nat 39.
Definition backslash : ascii := ascii_of_nat 92.

Definition contains_char (c : ascii) (s : string) : bool :=
  existsb (Ascii.eqb c) (list_ascii_of_string s).

Definition hex_digit (n : nat) : ascii :=
  nth n (list_ascii_of_string "0123456789abcdef") "0"%char.

Definition printable (n : nat) : bool :=
  ((32 <=? n)%nat && (n <? 127)%nat) || ((161 <=? n)%nat && negb (n =? 173)%nat).

Definition repr_char (quote c : ascii) : string :=
  let n := nat_of_ascii c in
  if Ascii.eqb c quote || Ascii.eqb c backslash then String backslash (String c "")
  else if (n =? 9)%nat then String backslash "t"
  else if (n =? 10)%nat then String backslash "n"
  else if (n =? 13)%nat then String backslash "r"
  else if printable n then String c ""
  else String backslash
         (String "x" (String (hex_digit (n / 16)) (String (hex_digit (n mod 16)) ""))).

Definition py_repr (s : string) : string :=
  let quote := if contains_char squote s && negb (contains_char dquote s)
               then dquote else squote in
  String quote (String.concat "" (map (repr_char quote) (list_ascii_of_string s)))
  ++ String quote "".

(** [str(l)] for a list of strings, as an f-string formats it. *)
Definition py_str_list (l : list string) : string :=
  "[" ++ join ", " (map py_repr l) ++ "]".

(** The [columns] argument of [select]: a [str] or a [list] of [str]. *)
Inductive columns_arg : Type :=
| Cols_str (s : string)
| Cols_list (l : list string).

(** [f"{columns}"] *)
Definition format_columns (columns : columns_arg) : string :=
  match columns with
  | Cols_str s => s
  | Cols_list l => py_str_list l
  end.

(** ** [class SqliteDB] *)

Module SqliteDB.
Section Methods.
Context {d : Driver}.

(** [SqliteDB.create(self, db_name)] *)
Definition create (db_name : string) : M d unit :=
  listing <- os_listdir ;;
  let detect_DB_file := filter (fun f => String.eqb f db_name) listing in
  if truthy_list detect_DB_file then
    print ("Database '" ++ db_name
           ++ "' already exists. You can now connect and perform operations.")
  else
    try_except
      (conn <- db_connect (File db_name) ;;
       conn_close conn ;;
       print ("Database '" ++ db_name ++ "' created successfully."))
      (fun e => print ("Error creating database '" ++ db_name ++ "': " ++ e)).

(** [SqliteDB.__init__(self, db_name)] *)
Definition init (db_name : string) : M d unit := create db_name.

(** The loop of [is_duplicate] over [unique_columns]: a condition and a
    parameter for each column that is a key of [data]. *)
Fixpoint unique_conditions (data : dict) (unique_columns : list string)
  (conditions : list string) (params : list value) : list string * list value :=
  match unique_columns with
  | [] => (conditions, params)
  | col :: rest =>
      match dict_get col data with
      | Some v => unique_conditions data rest (conditions ++ [col ++ " = ?"]) (params ++ [v])
      | None => unique_conditions data rest conditions params
      end
  end.

(** [SqliteDB.is_duplicate(database, table_name, data, unique_columns)] *)
Definition is_duplicate (database table_name : string) (data : dict)
  (unique_columns : list string) : M d bool :=
  if negb (truthy_list unique_columns) then ret false
  else
    conn <- db_connect (File database) ;;
    finally
      (try_except
         (let '(conditions, params) := unique_conditions data unique_columns [] [] in
          if negb (truthy_list conditions) then ret false
          else
            let where_clause := join " AND " conditions in
            let query := "SELECT COUNT(*) FROM " ++ table_name ++ " WHERE " ++ where_clause in
            rows <- cursor_execute conn query params ;;
            count <- fetchone_0 rows ;;
            gt_zero count)
         (fun e =>
            print ("Error checking for duplicates in '" ++ table_name ++ "': " ++ e) ;;
            ret false))
      (conn_close conn).

(** The statement of [table]: the triple-quoted f-string, line breaks and
    indentation included. *)
Definition create_table_query (table_name : string) (column_definitions : list string)
  : string :=
  nl ++ "        CREATE TABLE IF NOT EXISTS " ++ table_name ++ " (" ++
  nl ++ "            " ++ join ", " column_definitions ++
  nl ++ "        )" ++
  nl ++ "        ".

(** [SqliteDB.table(database, table_name, columns, foreign_keys=None)] *)
Definition table (database table_name : string) (columns : list (list string))
  (foreign_keys : option (list (list string))) : M d unit :=
  conn <- db_connect (File database) ;;
  column_definitions <- append_each column_definition columns [] ;;
  column_definitions <-
    (if truthy_opt_list foreign_keys
     then append_each foreign_key_definition
            (match foreign_keys with Some fks => fks | None => [] end)
            column_definitions
     else ret column_definitions) ;;
  finally
    (try_except
       (cursor_execute conn (create_table_query table_name column_definitions) [] ;;
        conn_commit conn)
       (fun e => print ("Error creating table '" ++ table_name ++ "': " ++ e)))
    (conn_close conn).

(** [SqliteDB.insert(database, table_name, data, unique_columns=None)] *)
Definition insert (database table_name : string) (data : dict)
  (unique_columns : option (list string)) : M d bool :=
  dup <- (if truthy_opt_list unique_columns
          then is_duplicate database table_name data
                 (match unique_columns with Some u => u | None => [] end)
          else ret false) ;;
  if dup then
    print ("Duplicate record found in '" ++ table_name ++ "'. Insertion skipped.") ;;
    ret false
  else
    conn <- db_connect (File database) ;;
    let columns := join ", " (keys data) in
    let placeholders := join ", " (times "?" (List.length data)) in
    let insert_query :=
      "INSERT INTO " ++ table_name ++ " (" ++ columns ++ ") VALUES (" ++ placeholders ++ ")" in
    finally
      (try_except
         (cursor_execute conn insert_query (values data) ;;
          conn_commit conn ;;
          print ("Data successfully inserted into '" ++ table_name ++ "'.") ;;
          ret true)
         (fun e =>
            print ("Error inserting data into '" ++ table_name ++ "': " ++ e) ;;
            ret false))
      (conn_close conn).

(** [SqliteDB.update(database, table_name, data, condition)]: the method
    takes no [params]. *)
Definition update (database table_name : string) (data : dict) (condition : string)
  : M d unit :=
  conn <- db_connect (File database) ;;
  let set_clause := join ", " (map (fun key => key ++ " = ?") (keys data)) in
  let update_query :=
    "UPDATE " ++ table_name ++ " SET " ++ set_clause ++ " WHERE " ++ condition in
  finally
    (try_except
       (cursor_execute conn update_query (values data) ;;
        conn_commit conn)
       (fun e => print ("Error updating table '" ++ table_name ++ "': " ++ e)))
    (conn_close conn).

(** [SqliteDB.delete(database, table_name, condition, params=())] *)
Definition delete (database table_name condition : string) (params : list value)
  : M d unit :=
  conn <- db_connect (File database) ;;
  let delete_query := "DELETE FROM " ++ table_name ++ " WHERE " ++ condition in
  finally
    (try_except
       (cursor_execute conn delete_query params ;;
        conn_commit conn)
       (fun e => print ("Error deleting data from '" ++ table_name ++ "': " ++ e)))
    (conn_close conn).

(** The statement of [select]. *)
Definition select_query (table_name : string) (columns : columns_arg)
  (condition : option string) : string :=
  let columns :=
    match columns with
    | Cols_list l => Cols_str (join ", " l)
    | Cols_str s => Cols_str s
    end in
  let select_query := "SELECT " ++ format_columns columns ++ " FROM " ++ table_name in
  if truthy_opt_str condition
  then select_query ++ " WHERE " ++ match condition with Some c => c | None => "" end
  else select_query.

(** [SqliteDB.select(database, table_name, columns='*', condition=None, params=())] *)
Definition select (database table_name : string) (columns : columns_arg)
  (condition : option string) (params : list value) : M d (list row) :=
  conn <- db_connect (File database) ;;
  let select_query := select_query table_name columns condition in
  finally
    (try_except
       (rows <- cursor_execute conn select_query params ;;
        ret rows)
       (fun e =>
          print ("Error selecting data from '" ++ table_name ++ "': " ++ e) ;;
          ret []))
    (conn_close conn).

Definition tables_query : string := "SELECT name FROM sqlite_master WHERE type='table';".

(** [SqliteDB.get_tables(database)] *)
Definition get_tables (database : string) : M d (list row) :=
  try_connect (File database)
    (fun conn =>
       tables <- cursor_execute conn tables_query [] ;;
       ret tables)
    (fun error =>
       print ("Failed to execute the query: " ++ error) ;;
       ret []).

Definition drop_query (table_name : string) : string :=
  "DROP TABLE IF EXISTS " ++ table_name ++ ";".

(** [SqliteDB.del_table(database, table_name)] *)
Definition del_table (database table_name : string) : M d unit :=
  try_connect (File database)
    (fun conn =>
       cursor_execute conn (drop_query table_name) [] ;;
       print ("Successfully deleted " ++ table_name ++ " table"))
    (fun error => print ("Failed to execute the query: " ++ error)).

End Methods.
End SqliteDB.

(** ** [class MysqlDB] *)

Module MysqlDB.

(** [self.db_config].  The methods are modelled on these four entries;
    [__init__] itself, which stores them and then calls [self.create_db]
    (a name the class does not define), is not part of the model. *)
Record db_config : Type := {
  host : string;
  user : string;
  password : string;
  database : string
}.

Section Methods.
Context {d : Driver}.
Variable self : db_config.

(** What [MysqlDB.connect(self)] opens: [mysql.connector.connect] on the
    four entries of [self.db_config]. *)
Definition connect : target :=
  Server (host self) (user self) (password self) (Some (database self)).

(** [MysqlDB.create(self, database)]: connects without selecting a database. *)
Definition create (database : string) : M d unit :=
  try_connect (Server (host self) (user self) (password self) None)
    (fun conn =>
       cursor_execute conn ("CREATE DATABASE IF NOT EXISTS " ++ database) [] ;;
       print ("Database '" ++ database ++ "' created successfully."))
    (fun e => print ("Error creating database '" ++ database ++ "': " ++ e)).

(** The two comprehensions of [is_duplicate]. *)
Definition duplicate_conditions (unique_columns : list string) : string :=
  join " AND " (map (fun col => col ++ " = %s") unique_columns).

Definition duplicate_params (data : dict) (unique_columns : list string) : list value :=
  flat_map (fun col => match dict_get col data with Some v => [v] | None => [] end)
           unique_columns.

Definition duplicate_query (table_name : string) (unique_columns : list string) : string :=
  "SELECT COUNT(*) FROM " ++ table_name ++ " WHERE " ++ duplicate_conditions unique_columns.

(** [MysqlDB.is_duplicate(self, table_name, data, unique_columns)] *)
Definition is_duplicate (table_name : string) (data : dict)
  (unique_columns : list string) : M d bool :=
  if negb (truthy_list unique_columns) then ret false
  else
    try_connect connect
      (fun conn =>
         let params := duplicate_params data unique_columns in
         rows <- cursor_execute conn (duplicate_query table_name unique_columns) params ;;
         count <- fetchone_0 rows ;;
         gt_zero count)
      (fun e =>
         print ("Error checking for duplicates in '" ++ table_name ++ "': " ++ e) ;;
         ret false).

(** [MysqlDB.table(self, table_name, columns, foreign_keys=None)] *)
Definition table (table_name : string) (columns : list (list string))
  (foreign_keys : option (list (list string))) : M d unit :=
  try_connect connect
    (fun conn =>
       defs <- comprehension column_definition columns ;;
       let column_defs := join ", " defs in
       column_defs <-
         (if truthy_opt_list foreign_keys
          then
            fks <- comprehension foreign_key_definition
                     (match foreign_keys with Some fks => fks | None => [] end) ;;
            let fk_defs := join ", " fks in
            ret (column_defs ++ ", " ++ fk_defs)
          else ret column_defs) ;;
       cursor_execute conn
         ("CREATE TABLE IF NOT EXISTS " ++ table_name ++ " (" ++ column_defs ++ ")") [] ;;
       conn_commit conn)
    (fun e => print ("Error creating table '" ++ table_name ++ "': " ++ e)).

(** [MysqlDB.insert(self, table_name, data, unique_columns=None)] *)
Definition insert (table_name : string) (data : dict)
  (unique_columns : option (list string)) : M d bool :=
  dup <- (if truthy_opt_list unique_columns
          then is_duplicate table_name data
                 (match unique_columns with Some u => u | None => [] end)
          else ret false) ;;
  if dup then
    print ("Duplicate entry found in '" ++ table_name ++ "'. Insertion skipped.") ;;
    ret false
  else
    try_connect connect
      (fun conn =>
         let columns := join ", " (keys data) in
         let placeholders := join ", " (times "%s" (List.length data)) in
         let query :=
           "INSERT INTO " ++ table_name ++ " (" ++ columns ++ ") VALUES ("
           ++ placeholders ++ ")" in
         cursor_execute conn query (values data) ;;
         conn_commit conn ;;
         print ("Data inserted into '" ++ table_name ++ "' successfully.") ;;
         ret true)
      (fun e =>
         print ("Error inserting data into '" ++ table_name ++ "': " ++ e) ;;
         ret false).

(** [MysqlDB.update(self, table_name, data, condition, params)] *)
Definition update (table_name : string) (data : dict) (condition : string)
  (params : list value) : M d unit :=
  try_connect connect
    (fun conn =>
       let set_clause := join ", " (map (fun key => key ++ " = %s") (keys data)) in
       let query :=
         "UPDATE " ++ table_name ++ " SET " ++ set_clause ++ " WHERE " ++ condition in
       cursor_execute conn query (values data ++ params) ;;
       conn_commit conn)
    (fun e => print ("Error updating table '" ++ table_name ++ "': " ++ e)).

(** [MysqlDB.delete(self, table_name, condition, params=())] *)
Definition delete (table_name condition : string) (params : list value) : M d unit :=
  try_connect connect
    (fun conn =>
       let query := "DELETE FROM " ++ table_name ++ " WHERE " ++ condition in
       cursor_execute conn query params ;;
       conn_commit conn)
    (fun e => print ("Error deleting data from '" ++ table_name ++ "': " ++ e)).

(** The statement of [select]: [columns] is formatted as it comes. *)
Definition select_query (table_name : string) (columns : columns_arg)
  (condition : option string) : string :=
  let query := "SELECT " ++ format_columns columns ++ " FROM " ++ table_name in
  if truthy_opt_str condition
  then query ++ " WHERE " ++ match condition with Some c => c | None => "" end
  else query.

(** [MysqlDB.select(self, table_name, columns='*', condition=None, params=())] *)
Definition select (table_name : string) (columns : columns_arg)
  (condition : option string) (params : list value) : M d (list row) :=
  try_connect connect
    (fun conn =>
       rows <- cursor_execute conn (select_query table_name columns condition) params ;;
       ret rows)
    (fun e =>
       print ("Error selecting data from '" ++ table_name ++ "': " ++ e) ;;
       ret []).

(** [MysqlDB.get_tables(self)] *)
Definition get_tables : M d (list value) :=
  try_connect connect
    (fun conn =>
       tables <- cursor_execute conn "SHOW TABLES" [] ;;
       comprehension (fun table => tuple_get table 0) tables)
    (fun e =>
       print ("Error fetching table names: " ++ e) ;;
       ret []).

(** [MysqlDB.del_table(self, table_name)] *)
Definition del_table (table_name : string) : M d unit :=
  try_connect connect
    (fun conn =>
       cursor_execute conn ("DROP TABLE IF EXISTS " ++ table_name) [] ;;
       conn_commit conn ;;
       print ("Table '" ++ table_name ++ "' deleted successfully."))
    (fun e => print ("Error deleting table '" ++ table_name ++ "': " ++ e)).

End Methods.
End MysqlDB.

(** ** Placeholders

    [mysql.connector] substitutes one parameter for each [%s] of the
    statement, [sqlite3] binds one parameter to each [?]. *)

Definition starts_with (c : ascii) (s : string) : bool :=
  match s with
  | String c' _ => Ascii.eqb c' c
  | EmptyString => false
  end.

Fixpoint count_ps (q : string) : nat :=
  match q with
  | String c rest =>
      (if Ascii.eqb c "%" && starts_with "s" rest then 1 else 0) + count_ps rest
  | EmptyString => 0
  end.

Fixpoint count_qm (q : string) : nat :=
  match q with
  | String c rest => (if Ascii.eqb c "?" then 1 else 0) + count_qm rest
  | EmptyString => 0
  end.

(** ** An in-memory driver

    A stand-in for both drivers, used to run the methods on concrete
    inputs: a catalogue of table names, scripted answers to statements, a
    parameter-count check, and a write lock held by another process. *)

Module Mock.

Record state : Type := {
  files : list string;                          (* the working directory *)
  reachable : bool;                             (* a connection can be opened *)
  locked : bool;                                (* writes fail: database is locked *)
  catalogue : list string;                      (* the tables *)
  answers : list (string * reply (list row))    (* scripted replies, by statement *)
}.

Fixpoint strip_prefix (p s : string) : option string :=
  match p, s with
  | EmptyString, _ => Some s
  | String a p', String b s' => if Ascii.eqb a b then strip_prefix p' s' else None
  | String _ _, EmptyString => None
  end.

Definition is_blank (c : ascii) : bool :=
  Ascii.eqb c " " || Ascii.eqb c (ascii_of_nat 10).

Fixpoint ltrim (s : string) : string :=
  match s with
  | String c rest => if is_blank c then ltrim rest else s
  | EmptyString => EmptyString
  end.

Fixpoint word (s : string) : string :=
  match s with
  | String c rest =>
      if is_blank c || Ascii.eqb c ";" || Ascii.eqb c "(" then EmptyString
      else String c (word rest)
  | EmptyString => EmptyString
  end.

(** The table a statement starting with [keyword] names. *)
Definition statement_table (keyword q : string) : option string :=
  match strip_prefix keyword (ltrim q) with
  | Some rest => Some (word rest)
  | None => None
  end.

Definition is_read (q : string) : bool :=
  String.prefix "SELECT" q || String.prefix "SHOW" q.

Fixpoint scripted (q : string) (script : list (string * reply (list row)))
  : reply (list row) :=
  match script with
  | [] => Done []
  | (q', r) :: rest => if String.eqb q q' then r else scripted q rest
  end.

Definition with_catalogue (c : list string) (st : state) : state :=
  {| files := files st; reachable := reachable st; locked := locked st;
     catalogue := c; answers := answers st |}.

Definition has_table (n : string) (st : state) : bool :=
  existsb (String.eqb n) (catalogue st).

Definition connect (t : target) (st : state) : state * reply unit :=
  if reachable st then
    match t with
    | File path =>
        ({| files := if existsb (String.eqb path) (files st) then files st
                     else files st ++ [path];
            reachable := reachable st; locked := locked st;
            catalogue := catalogue st; answers := answers st |}, Done tt)
    | Server _ _ _ _ => (st, Done tt)
    end
  else (st, Failed "unable to open the database").

Definition execute (q : string) (ps : list value) (st : state)
  : state * reply (list row) :=
  if negb (Nat.eqb (count_ps q + count_qm q) (List.length ps)) then
    (st, Failed "wrong number of parameters for the statement")
  else if locked st && negb (is_read q) then (st, Failed "database is locked")
  else
    match statement_table "DROP TABLE IF EXISTS " q with
    | Some n =>
        (with_catalogue (filter (fun t => negb (String.eqb n t)) (catalogue st)) st, Done [])
    | None =>
        match statement_table "CREATE TABLE IF NOT EXISTS " q with
        | Some n =>
            (if has_table n st then st else with_catalogue (catalogue st ++ [n]) st, Done [])
        | None =>
            if String.eqb q SqliteDB.tables_query || String.eqb q "SHOW TABLES"
            then (st, Done (map (fun n => [VStr n]) (catalogue st)))
            else (st, scripted q (answers st))
        end
    end.

Definition driver : Driver := {|
  backend := state;
  drv_listdir := files;
  drv_connect := connect;
  drv_execute := execute;
  drv_commit := fun st => (st, Done tt);
  drv_close := fun st => st
|}.

(** A world with no connection opened yet and nothing printed. *)
Definition start (st : state) : World driver := Build_World (d := driver) st [] 0 [].

Definition config : MysqlDB.db_config :=
  {| MysqlDB.host := "localhost"; MysqlDB.user := "root";
     MysqlDB.password := "secret"; MysqlDB.database := "test_db" |}.

End Mock.

(** ** Vocabulary of the statements *)

(** The unique columns that are keys of the row, in the order given. *)
Definition present_columns (data : dict) (unique_columns : list string) : list string :=
  filter (fun col => dict_mem col data) unique_columns.

(** The row's value for a column ([None] never arises on a present column). *)
Definition value_of (data : dict) (col : string) : value :=
  match dict_get col data with Some v => v | None => VNone end.

(** Well-formed column and foreign-key tuples: three strings each. *)
Definition tuple3 (t : string * string * string) : list string :=
  match t with (a, b, c) => [a; b; c] end.

Definition column_text (t : string * string * string) : string :=
  match t with (name, type, constraints) => name ++ " " ++ type ++ " " ++ constraints end.

Definition foreign_key_text (t : string * string * string) : string :=
  match t with
  | (col, ref_table, ref_col) =>
      "FOREIGN KEY (" ++ col ++ ") REFERENCES " ++ ref_table ++ "(" ++ ref_col ++ ")"
  end.

(** The DDL fragments of a [table] call, column definitions first. *)
Definition fragments (columns : list (string * string * string))
  (foreign_keys : option (list (string * string * string))) : list string :=
  (map column_text columns ++
   map foreign_key_text (match foreign_keys with Some fks => fks | None => [] end))%list.

(** The world a method leaves when its connection [fresh w] is closed again
    on backend [b], having logged [events]. *)
Definition closed_world {d} (w : World d) (b : backend d) (events : list event) : World d :=
  Build_World (drv_close d b) (filter (fun c => negb (Nat.eqb c (fresh w))) (live w))
              (S (fresh w)) (log w ++ events).

(** What [select] returns for a reply of the driver, and what it prints. *)
Definition select_result (r : reply (list row)) : list row :=
  match r with Done rows => rows | Failed _ => [] end.



(** What [del_table] prints for a reply of the driver. *)
Definition drop_report (table_name : string) (r : reply (list row)) : event :=
  match r with
  | Done _ => Print ("Successfully deleted " ++ table_name ++ " table")
  | Failed msg => Print ("Failed to execute the query: " ++ msg)
  end.

(** *** Writes

    [insert], [update], [delete] and [table] execute one statement and
    commit it inside one [try] block.  For the driver's replies to the
    statement ([re]) and to the commit ([rc]): *)


(** the error that reaches the [except] clause, if any; *)
Definition write_error (re : reply (list row)) (rc : reply unit) : option string :=
  match re with
  | Failed msg => Some msg
  | Done _ => match rc with Failed msg => Some msg | Done _ => None end
  end.

(** the driver calls made: the commit is attempted only after a statement
    that succeeded; *)
Definition write_trace (conn : nat) (q : string) (ps : list value)
  (re : reply (list row)) : list event :=
  Execute q ps :: match re with Done _ => [Commit conn] | Failed _ => [] end.

(** the backend the calls leave ([b2] after the statement, [b3] after the
    commit); *)
Definition write_backend {B : Type} (b2 b3 : B) (re : reply (list row)) : B :=
  match re with Done _ => b3 | Failed _ => b2 end.

(** the line printed by a method that reports errors only. *)
Definition error_report (prefix : string) (err : option string) : list event :=
  match err with Some msg => [Print (prefix ++ msg)] | None => [] end.

(** *** Connection handles *)

(** Every live handle was issued before: the next handle is new. *)
Definition handles_below {d} (w : World d) : Prop :=
  Forall (fun c => c < fresh w) (live w).

(** A computation that neither opens nor closes a connection. *)
Definition frame_preserving {d A} (m : M d A) : Prop :=
  forall w, live (snd (m w)) = live w /\ fresh (snd (m w)) = fresh w.

(** A computation that leaves open exactly the connections it found open,
    whatever it opened in between. *)
Definition keeps_connections {d A} (m : M d A) : Prop :=
  forall w, handles_below w ->
            live (snd (m w)) = live w /\ handles_below (snd (m w)).

(** Number of commits in a log. *)
Definition commits (l : list event) : nat :=
  List.length (filter (fun e => match e with Commit _ => true | _ => false end) l).

(** The statements executed, oldest first. *)
Definition statements (l : list event) : list string :=
  flat_map (fun e => match e with Execute q _ => [q] | _ => [] end) l.

(** A column or foreign-key tuple with its three entries. *)
Definition well_formed_tuple (t : list string) : bool := (3 <=? List.length t)%nat.

(** *** Statement texts, by placeholder token *)

Definition insert_statement (placeholder table_name : string) (data : dict) : string :=
  "INSERT INTO " ++ table_name ++ " (" ++ join ", " (keys data) ++ ") VALUES ("
  ++ join ", " (times placeholder (List.length data)) ++ ")".

Definition update_statement (placeholder table_name : string) (data : dict)
  (condition : string) : string :=
  "UPDATE " ++ table_name ++ " SET "
  ++ join ", " (map (fun key => key ++ " = " ++ placeholder) (keys data))
  ++ " WHERE " ++ condition.



(** What the duplicate check makes of the driver's reply to its count:
    a failure is "no duplicate"; otherwise the first field of the first
    row is compared with zero, which raises when there is no row, no
    field, or a field that is not an integer. *)
Definition count_answer (r : reply (list row)) : outcome bool :=
  match r with
  | Failed _ => Ret false
  | Done [] => Raise TypeError
  | Done ([] :: _) => Raise IndexError
  | Done ((VInt n :: _) :: _) => Ret (0 <? n)%Z
  | Done ((_ :: _) :: _) => Raise TypeError
  end.

(** The error of a reply, if it is one. *)
Definition reply_error {A} (r : reply A) : option string :=
  match r with Failed msg => Some msg | Done _ => None end.

(** The first field of every row, when every row has one. *)
Fixpoint first_fields (rows : list row) : option (list value) :=
  match rows with
  | [] => Some []
  | r :: rest =>
      match r, first_fields rest with
      | v :: _, Some vs => Some (v :: vs)
      | _, _ => None
      end
  end.

(** The world a method leaves when its connection could not be opened:
    the attempt and, when the method prints one, a line. *)
Definition unopened_world {d} (w : World d) (b : backend d) (events : list event)
  : World d :=
  Build_World b (live w) (fresh w) (log w ++ events).

(** A computation that never commits. *)
Definition no_commit {d A} (m : M d A) : Prop :=
  forall w, commits (log (snd (m w))) = commits (log w).

(** Sample backends for running the methods. *)
Module Sample.

Definition employees : Mock.state :=
  {| Mock.files := ["notes.txt"]; Mock.reachable := true; Mock.locked := false;
     Mock.catalogue := ["employees"]; Mock.answers := [] |}.



(** A server that cannot be reached. *)
Definition unreachable : Mock.state :=
  {| Mock.files := []; Mock.reachable := false; Mock.locked := false;
     Mock.catalogue := ["users"]; Mock.answers := [] |}.

(** A [users] table holding one row whose email is [a@x.com]: the count of
    rows with that email is 1, in either placeholder dialect. *)
Definition users : Mock.state :=
  {| Mock.files := ["users.db"]; Mock.reachable := true; Mock.locked := false;
     Mock.catalogue := ["users"];
     Mock.answers :=
       [("SELECT COUNT(*) FROM users WHERE email = %s", Done [[VInt 1]]);
        ("SELECT COUNT(*) FROM users WHERE email = ?", Done [[VInt 1]])] |}.

Definition new_row : dict := [("email", VStr "a@x.com"); ("name", VStr "B")].

(** The columns of the docstring's [employees] table. *)
Definition employee_columns : list (string * string * string) :=
  [("id", "INTEGER", "PRIMARY KEY AUTOINCREMENT");
   ("email", "TEXT", "UNIQUE NOT NULL");
   ("name", "TEXT", "NOT NULL")].

End Sample.

(** * Properties *)

Ltac calm :=
  cbn -[String.append String.concat MysqlDB.duplicate_query MysqlDB.duplicate_params].

Ltac run :=
  cbv beta delta [bind ret raise try_except finally print emit os_listdir db_connect
                  cursor_execute conn_commit conn_close close_var try_connect
                  closed_world];
  calm.

Ltac tidy := rewrite <- ?app_assoc; calm; rewrite ?Nat.eqb_refl; calm.

(** ** Statement building *)

Lemma unique_conditions_spec (data : dict) (unique_columns : list string)
  (conditions : list string) (params : list value) :
  SqliteDB.unique_conditions data unique_columns conditions params =
  ((conditions ++ map (fun col => (col ++ " = ?")%string)
                      (present_columns data unique_columns))%list,
   (params ++ map (value_of data) (present_columns data unique_columns))%list).
Proof.
  revert conditions params. unfold present_columns.
  induction unique_columns as [|col rest IH]; intros conditions params; simpl.
  - now rewrite !app_nil_r.
  - unfold dict_mem.
    destruct (dict_get col data) as [v|] eqn:Hget; simpl.
    + rewrite IH, <- !app_assoc. simpl. unfold value_of. now rewrite Hget.
    + apply IH.
Qed.

Lemma duplicate_params_spec (data : dict) (unique_columns : list string) :
  MysqlDB.duplicate_params data unique_columns =
  map (value_of data) (present_columns data unique_columns).
Proof.
  unfold MysqlDB.duplicate_params, present_columns.
  induction unique_columns as [|col rest IH]; simpl; [reflexivity|].
  unfold dict_mem.
  destruct (dict_get col data) as [v|] eqn:Hget; simpl.
  - rewrite IH. unfold value_of. now rewrite Hget.
  - exact IH.
Qed.

Lemma append_each_columns {d} (columns : list (string * string * string))
  (acc : list string) (w : World d) :
  append_each column_definition (map tuple3 columns) acc w =
  (Ret (acc ++ map column_text columns)%list, w).
Proof.
  revert acc. induction columns as [|[[a b] c] rest IH]; intro acc; simpl.
  - now rewrite app_nil_r.
  - run. rewrite IH, <- app_assoc. reflexivity.
Qed.

Lemma append_each_foreign_keys {d} (fks : list (string * string * string))
  (acc : list string) (w : World d) :
  append_each foreign_key_definition (map tuple3 fks) acc w =
  (Ret (acc ++ map foreign_key_text fks)%list, w).
Proof.
  revert acc. induction fks as [|[[a b] c] rest IH]; intro acc; simpl.
  - now rewrite app_nil_r.
  - run. rewrite IH, <- app_assoc. reflexivity.
Qed.

Lemma truthy_filter_eqb (x : string) (l : list string) :
  truthy_list (filter (fun f => String.eqb f x) l) =
  if in_dec string_dec x l then true else false.
Proof.
  induction l as [|a l IH]; simpl; [reflexivity|].
  destruct (String.eqb_spec a x) as [->|Hne].
  - simpl. destruct (string_dec x x); [reflexivity|congruence].
  - destruct (string_dec a x); [congruence|].
    rewrite IH. destruct (in_dec string_dec x l); reflexivity.
Qed.

(** ** Ensure-exists of the file backend *)

(** C9. [SqliteDB.create] looks for [db_name] itself (string equality, so
    case-sensitive) among the names [os.listdir('.')] returns.  When the
    name is listed the method only prints a line: no connection is opened
    and the backend is left as it was.  Only otherwise does it call
    [sqlite3.connect], which is what creates the file; the connection is
    closed at once and a driver error is printed, not raised. *)
Theorem create_checks_listing (d : Driver) (db_name : string) (w : World d) :
  SqliteDB.create db_name w =
  if in_dec string_dec db_name (drv_listdir d (env w)) then
    (Ret tt,
     emit (Print ("Database '" ++ db_name
                  ++ "' already exists. You can now connect and perform operations.")) w)
  else
    match drv_connect d (File db_name) (env w) with
    | (b, Done _) =>
        (Ret tt,
         closed_world w b
           [Connect (File db_name); Close (fresh w);
            Print ("Database '" ++ db_name ++ "' created successfully.")])
    | (b, Failed msg) =>
        (Ret tt,
         Build_World b (live w) (fresh w)
           (log w ++ [Connect (File db_name);
                      Print ("Error creating database '" ++ db_name ++ "': " ++ msg)]))
    end.
Proof.
  unfold SqliteDB.create. run.
  rewrite truthy_filter_eqb.
  destruct (in_dec string_dec db_name (drv_listdir d (env w))) as [Hin|Hout].
  - reflexivity.
  - run. destruct (drv_connect d (File db_name) (env w)) as [b [[]|msg]]; cbn.
    + rewrite Nat.eqb_refl. cbn. rewrite <- !app_assoc. reflexivity.
    + rewrite <- !app_assoc. reflexivity.
Qed.

(** The match is on the exact name: a listing that differs in case does
    not stop the creation attempt. *)
Example create_is_case_sensitive :
  log (snd (SqliteDB.create "Notes.txt" (Mock.start Sample.employees))) =
    [Connect (File "Notes.txt"); Close 0;
     Print "Database 'Notes.txt' created successfully."]
  /\ log (snd (SqliteDB.create "notes.txt" (Mock.start Sample.employees))) =
    [Print "Database 'notes.txt' already exists. You can now connect and perform operations."].
Proof. split; reflexivity. Qed.

(** ** Connections *)

Lemma db_connect_done {d} (t : target) (w : World d) (b : backend d) :
  drv_connect d t (env w) = (b, Done tt) ->
  db_connect t w =
  (Ret (fresh w), Build_World b (fresh w :: live w) (S (fresh w)) (log w ++ [Connect t])).
Proof. intro H. unfold db_connect. now rewrite H. Qed.

Lemma db_connect_failed {d} (t : target) (w : World d) (b : backend d) (msg : string) :
  drv_connect d t (env w) = (b, Failed msg) ->
  db_connect t w =
  (Raise (DriverError msg), Build_World b (live w) (fresh w) (log w ++ [Connect t])).
Proof. intro H. unfold db_connect. now rewrite H. Qed.

(** ** Table creation statements *)

Lemma string_app_assoc (a b c : string) : (a ++ b) ++ c = a ++ (b ++ c).
Proof. induction a as [|x a IH]; simpl; [reflexivity|now rewrite IH]. Qed.

Lemma join_app (sep : string) (xs ys : list string) :
  xs <> [] -> ys <> [] ->
  join sep (xs ++ ys) = join sep xs ++ sep ++ join sep ys.
Proof.
  intros Hx Hy. unfold join.
  induction xs as [|x xs IH]; [congruence|].
  destruct xs as [|x' xs].
  - simpl. destruct ys; [congruence|reflexivity].
  - change (String.concat sep ((x :: x' :: xs) ++ ys))
      with (x ++ sep ++ String.concat sep ((x' :: xs) ++ ys)).
    rewrite IH by discriminate.
    change (String.concat sep (x :: x' :: xs))
      with (x ++ sep ++ String.concat sep (x' :: xs)).
    now rewrite !string_app_assoc.
Qed.

(** On well-formed tuples the statement of [table] holds the fragments. *)
Lemma sqlite_table_unfold (d : Driver) (database table_name : string)
  (columns : list (string * string * string))
  (foreign_keys : option (list (string * string * string)))
  (w : World d) (b : backend d) :
  drv_connect d (File database) (env w) = (b, Done tt) ->
  SqliteDB.table database table_name (map tuple3 columns)
    (option_map (map tuple3) foreign_keys) w =
  finally
    (try_except
       (cursor_execute (fresh w)
          (SqliteDB.create_table_query table_name (fragments columns foreign_keys)) [] ;;
        conn_commit (fresh w))
       (fun e => print ("Error creating table '" ++ table_name ++ "': " ++ e)))
    (conn_close (fresh w))
    (Build_World b (fresh w :: live w) (S (fresh w)) (log w ++ [Connect (File database)])).
Proof.
  intro Hc. unfold SqliteDB.table, bind at 1. rewrite (db_connect_done _ _ _ Hc).
  unfold bind at 1. rewrite append_each_columns. cbn [app].
  assert (Hfk :
    (if truthy_opt_list (option_map (map tuple3) foreign_keys)
     then append_each foreign_key_definition
            match option_map (map tuple3) foreign_keys with Some fks => fks | None => [] end
            (map column_text columns)
     else ret (map column_text columns))
      (Build_World b (fresh w :: live w) (S (fresh w)) (log w ++ [Connect (File database)]))
    = (Ret (fragments columns foreign_keys),
       Build_World b (fresh w :: live w) (S (fresh w)) (log w ++ [Connect (File database)]))).
  { unfold fragments. destruct foreign_keys as [[|fk fks]|]; cbn [option_map truthy_opt_list map].
    - now rewrite app_nil_r.
    - change (tuple3 fk :: map tuple3 fks) with (map tuple3 (fk :: fks)).
      now rewrite append_each_foreign_keys.
    - now rewrite app_nil_r. }
  unfold bind at 1. rewrite Hfk. reflexivity.
Qed.

(** On well-formed tuples the file backend executes one statement: the
    fragments, column definitions first, joined by [", "] inside
    [CREATE TABLE IF NOT EXISTS]. *)
Lemma sqlite_table_statement (d : Driver) (database table_name : string)
  (columns : list (string * string * string))
  (foreign_keys : option (list (string * string * string)))
  (w : World d) (b : backend d) :
  drv_connect d (File database) (env w) = (b, Done tt) ->
  exists b' events,
    SqliteDB.table database table_name (map tuple3 columns)
      (option_map (map tuple3) foreign_keys) w =
    (Ret tt,
     closed_world w b'
       (Connect (File database)
        :: Execute (SqliteDB.create_table_query table_name (fragments columns foreign_keys)) []
        :: events)).
Proof.
  intro Hc. rewrite (sqlite_table_unfold _ _ _ _ _ _ _ Hc). run.
  destruct (drv_execute d _ [] b) as [b2 [rows|msg]]; calm.
  - destruct (drv_commit d b2) as [b3 [[]|msg]]; calm; tidy; eexists _, _; reflexivity.
  - tidy. eexists _, _; reflexivity.
Qed.

(** The server backend joins the column definitions, then appends [", "]
    and the joined foreign keys: the same statement text as a single join
    whenever there is a column definition or no foreign key. *)
Lemma mysql_table_statement (d : Driver) (self : MysqlDB.db_config) (table_name : string)
  (columns : list (string * string * string))
  (foreign_keys : option (list (string * string * string)))
  (w : World d) (b : backend d) :
  columns <> [] \/ truthy_opt_list foreign_keys = false ->
  drv_connect d (MysqlDB.connect self) (env w) = (b, Done tt) ->
  exists b' events,
    MysqlDB.table self table_name (map tuple3 columns)
      (option_map (map tuple3) foreign_keys) w =
    (Ret tt,
     closed_world w b'
       (Connect (MysqlDB.connect self)
        :: Execute ("CREATE TABLE IF NOT EXISTS " ++ table_name ++ " ("
                    ++ join ", " (fragments columns foreign_keys) ++ ")") []
        :: events)).
Proof.
  intros Hne Hc. unfold MysqlDB.table, try_connect. rewrite (db_connect_done _ _ _ Hc).
  unfold comprehension, bind at 1. unfold finally, try_except, bind at 1.
  rewrite append_each_columns. cbn [app].
  assert (Hfk :
    (if truthy_opt_list (option_map (map tuple3) foreign_keys)
     then
       bind (append_each foreign_key_definition
               match option_map (map tuple3) foreign_keys with Some fks => fks | None => [] end
               [])
            (fun fks => ret (join ", " (map column_text columns) ++ ", " ++ join ", " fks))
     else ret (join ", " (map column_text columns)))
      (Build_World b (fresh w :: live w) (S (fresh w))
         (log w ++ [Connect (MysqlDB.connect self)]))
    = (Ret (join ", " (fragments columns foreign_keys)),
       Build_World b (fresh w :: live w) (S (fresh w))
         (log w ++ [Connect (MysqlDB.connect self)]))).
  { unfold fragments. destruct foreign_keys as [[|fk fks]|]; cbn [option_map truthy_opt_list map].
    - now rewrite app_nil_r.
    - change (tuple3 fk :: map tuple3 fks) with (map tuple3 (fk :: fks)).
      unfold bind. rewrite append_each_foreign_keys. cbn [app]. unfold ret.
      destruct Hne as [Hne|Hne]; [|discriminate].
      rewrite join_app; [reflexivity| |discriminate].
      destruct columns; [congruence|discriminate].
    - now rewrite app_nil_r. }
  rewrite Hfk. run.
  destruct (drv_execute d _ [] b) as [b2 [rows|msg]]; cbn.
  - destruct (drv_commit d b2) as [b3 [[]|msg]]; cbn; tidy; eexists _, _; reflexivity.
  - tidy. eexists _, _; reflexivity.
Qed.

(** C8. With no column definition and a foreign key, the server backend
    does not join the fragments: [column_defs] is the empty string and the
    foreign keys are appended after [", "], so the list inside
    [CREATE TABLE IF NOT EXISTS] starts with a stray separator.  The file
    backend, on the same input, joins the fragments. *)
Theorem mysql_table_stray_separator :
  log (snd (MysqlDB.table Mock.config "child" []
              (Some [["parent_id"; "parent"; "id"]]) (Mock.start Sample.employees))) =
    [Connect (MysqlDB.connect Mock.config);
     Execute "CREATE TABLE IF NOT EXISTS child (, FOREIGN KEY (parent_id) REFERENCES parent(id))" [];
     Commit 0; Close 0]
  /\ "CREATE TABLE IF NOT EXISTS child (, FOREIGN KEY (parent_id) REFERENCES parent(id))"
     <> "CREATE TABLE IF NOT EXISTS child ("
        ++ join ", " (fragments [] (Some [("parent_id", "parent", "id")])) ++ ")"
  /\ log (snd (SqliteDB.table "employees.db" "child" []
                 (Some [["parent_id"; "parent"; "id"]]) (Mock.start Sample.employees))) =
    [Connect (File "employees.db");
     Execute (SqliteDB.create_table_query "child"
                (fragments [] (Some [("parent_id", "parent", "id")]))) [];
     Commit 0; Close 0].
Proof. repeat split; try reflexivity. discriminate. Qed.

(** ** Release of the connection *)

(** In the file backend the statement of [table] is built between
    [sqlite3.connect] and the [try] block: a column tuple with no
    constraints entry raises [IndexError] there, and the connection stays
    open. *)
Lemma sqlite_table_short_tuple (d : Driver) (database table_name name type : string)
  (w : World d) (b : backend d) :
  drv_connect d (File database) (env w) = (b, Done tt) ->
  SqliteDB.table database table_name [[name; type]] None w =
  (Raise IndexError,
   Build_World b (fresh w :: live w) (S (fresh w)) (log w ++ [Connect (File database)])).
Proof.
  intro Hc. unfold SqliteDB.table, bind at 1. rewrite (db_connect_done _ _ _ Hc).
  reflexivity.
Qed.

(** The server backend builds the statement inside the [try] block: the
    same input raises the same error after the connection is closed. *)
Lemma mysql_table_short_tuple (d : Driver) (self : MysqlDB.db_config)
  (table_name name type : string) (w : World d) (b : backend d) :
  drv_connect d (MysqlDB.connect self) (env w) = (b, Done tt) ->
  MysqlDB.table self table_name [[name; type]] None w =
  (Raise IndexError,
   closed_world w b [Connect (MysqlDB.connect self); Close (fresh w)]).
Proof.
  intro Hc. unfold MysqlDB.table, try_connect. rewrite (db_connect_done _ _ _ Hc).
  run. tidy. reflexivity.
Qed.

(** When the server cannot be reached, [conn] is never bound: the error is
    printed and the [finally] block then raises [UnboundLocalError]. *)
Lemma mysql_create_unreachable (d : Driver) (self : MysqlDB.db_config) (database : string)
  (w : World d) (b : backend d) (msg : string) :
  drv_connect d (Server (MysqlDB.host self) (MysqlDB.user self) (MysqlDB.password self) None)
    (env w) = (b, Failed msg) ->
  MysqlDB.create self database w =
  (Raise UnboundLocalError,
   Build_World b (live w) (fresh w)
     (log w ++ [Connect (Server (MysqlDB.host self) (MysqlDB.user self)
                           (MysqlDB.password self) None);
                Print ("Error creating database '" ++ database ++ "': " ++ msg)])).
Proof.
  intro Hc. unfold MysqlDB.create, try_connect. rewrite (db_connect_failed _ _ _ _ Hc).
  run. tidy. reflexivity.
Qed.

(** C6. [SqliteDB.table] called with a column given as [(name, type)]: the
    connection is opened, building the statement raises [IndexError]
    before the [try] block is entered, and the call ends with the
    connection still open ([Connect] is the only driver call, handle [0]
    stays live).  [MysqlDB.table] on the same input closes its connection
    before the error leaves the method. *)
Theorem sqlite_table_leaks_connection :
  SqliteDB.table "employees.db" "employees" [["id"; "INTEGER"]] None
    (Mock.start Sample.employees) =
  (Raise IndexError,
   Build_World (d := Mock.driver)
     (fst (Mock.connect (File "employees.db") Sample.employees))
     [0] 1 [Connect (File "employees.db")])
  /\ fst (MysqlDB.table Mock.config "employees" [["id"; "INTEGER"]] None
            (Mock.start Sample.employees)) = Raise IndexError
  /\ live (snd (MysqlDB.table Mock.config "employees" [["id"; "INTEGER"]] None
                  (Mock.start Sample.employees))) = []
  /\ log (snd (MysqlDB.table Mock.config "employees" [["id"; "INTEGER"]] None
                 (Mock.start Sample.employees))) =
     [Connect (MysqlDB.connect Mock.config); Close 0].
Proof. repeat split; reflexivity. Qed.

(** ** [select] *)

Lemma string_app_empty (s : string) : s ++ "" = s.
Proof. induction s as [|c s IH]; simpl; [reflexivity|now rewrite IH]. Qed.

(** The file backend joins a list of column names with [", "]; a string
    is taken as it is; the [WHERE] clause is there exactly when the
    condition is a non-empty string. *)
Lemma sqlite_select_query_spec (table_name : string) (columns : columns_arg)
  (condition : option string) :
  SqliteDB.select_query table_name columns condition =
  "SELECT "
  ++ match columns with Cols_str s => s | Cols_list l => join ", " l end
  ++ " FROM " ++ table_name
  ++ match condition with
     | Some (String c rest) => " WHERE " ++ String c rest
     | _ => ""
     end.
Proof.
  unfold SqliteDB.select_query.
  destruct condition as [[|c rest]|]; destruct columns; cbn [truthy_opt_str format_columns];
    rewrite ?string_app_assoc, ?string_app_empty; reflexivity.
Qed.

(** The server backend does the same for a string. *)
Lemma mysql_select_query_str (table_name s : string) (condition : option string) :
  MysqlDB.select_query table_name (Cols_str s) condition =
  SqliteDB.select_query table_name (Cols_str s) condition.
Proof. reflexivity. Qed.

(** For a list it formats the list itself: the column list of the
    statement opens with a bracket. *)
Lemma mysql_select_query_list (table_name : string) (l : list string)
  (condition : option string) :
  String.prefix "SELECT [" (MysqlDB.select_query table_name (Cols_list l) condition) = true.
Proof.
  unfold MysqlDB.select_query, format_columns, py_str_list.
  destruct (truthy_opt_str condition); simpl;
    match goal with |- String.prefix "" ?x = true => destruct x; reflexivity end.
Qed.

(** C5. [MysqlDB.select] given the list ['name', 'email'] has no branch
    for lists: the f-string formats the list as Python prints it, and the
    statement executed is [SELECT ['name', 'email'] FROM users].
    [SqliteDB.select] joins the same list into [name, email]. *)
Theorem mysql_select_formats_list_as_repr :
  MysqlDB.select_query "users" (Cols_list ["name"; "email"]) None =
    "SELECT ['name', 'email'] FROM users"
  /\ log (snd (MysqlDB.select Mock.config "users" (Cols_list ["name"; "email"]) None []
                 (Mock.start Sample.users))) =
     [Connect (MysqlDB.connect Mock.config);
      Execute "SELECT ['name', 'email'] FROM users" []; Close 0]
  /\ SqliteDB.select_query "users" (Cols_list ["name"; "email"]) None =
     "SELECT name, email FROM users".
Proof. repeat split; reflexivity. Qed.

(** ** [update] *)

(** The file backend binds the row's values and nothing else: the method
    has no parameter for the condition's placeholders. *)
Lemma sqlite_update_binds_row_only (d : Driver) (database table_name : string)
  (data : dict) (condition : string) (w : World d) (b : backend d) :
  drv_connect d (File database) (env w) = (b, Done tt) ->
  exists b' events,
    SqliteDB.update database table_name data condition w =
    (Ret tt,
     closed_world w b'
       (Connect (File database)
        :: Execute ("UPDATE " ++ table_name ++ " SET "
                    ++ join ", " (map (fun key => key ++ " = ?") (keys data))
                    ++ " WHERE " ++ condition)
             (values data)
        :: events)).
Proof.
  intro Hc. unfold SqliteDB.update, bind at 1. rewrite (db_connect_done _ _ _ Hc). run.
  destruct (drv_execute d _ (values data) b) as [b2 [rows|msg]]; cbn.
  - destruct (drv_commit d b2) as [b3 [[]|msg]]; cbn; tidy; eexists _, _; reflexivity.
  - tidy. eexists _, _; reflexivity.
Qed.

(** The server backend binds the row's values followed by [params]. *)
Lemma mysql_update_binds_row_then_params (d : Driver) (self : MysqlDB.db_config)
  (table_name : string) (data : dict) (condition : string) (params : list value)
  (w : World d) (b : backend d) :
  drv_connect d (MysqlDB.connect self) (env w) = (b, Done tt) ->
  exists b' events,
    MysqlDB.update self table_name data condition params w =
    (Ret tt,
     closed_world w b'
       (Connect (MysqlDB.connect self)
        :: Execute ("UPDATE " ++ table_name ++ " SET "
                    ++ join ", " (map (fun key => key ++ " = %s") (keys data))
                    ++ " WHERE " ++ condition)
             (values data ++ params)
        :: events)).
Proof.
  intro Hc. unfold MysqlDB.update, try_connect. rewrite (db_connect_done _ _ _ Hc). run.
  destruct (drv_execute d _ (values data ++ params) b) as [b2 [rows|msg]]; cbn.
  - destruct (drv_commit d b2) as [b3 [[]|msg]]; cbn; tidy; eexists _, _; reflexivity.
  - tidy. eexists _, _; reflexivity.
Qed.

(** C3. [SqliteDB.update] on the docstring's own example, a row
    [{'salary': 70000}] and the condition [id = ?]: the statement has two
    placeholders and is executed with the row's value alone, since the
    method takes no [params]; the driver rejects the binding and the error
    is printed.  [MysqlDB.update] appends the caller's parameters. *)
Theorem sqlite_update_binds_no_condition_params :
  SqliteDB.update "employees.db" "employees" [("salary", VInt 70000)] "id = ?"
    (Mock.start Sample.employees) =
  (Ret tt,
   closed_world (Mock.start Sample.employees)
     (fst (Mock.connect (File "employees.db") Sample.employees))
     [Connect (File "employees.db");
      Execute "UPDATE employees SET salary = ? WHERE id = ?" [VInt 70000];
      Print "Error updating table 'employees': wrong number of parameters for the statement";
      Close 0])
  /\ log (snd (MysqlDB.update Mock.config "employees" [("salary", VInt 70000)] "id = %s"
                 [VInt 1] (Mock.start Sample.employees))) =
     [Connect (MysqlDB.connect Mock.config);
      Execute "UPDATE employees SET salary = %s WHERE id = %s" [VInt 70000; VInt 1];
      Commit 0; Close 0].
Proof. split; reflexivity. Qed.




(** ** Duplicate detection *)

Lemma present_columns_nonempty (data : dict) (unique_columns : list string) :
  present_columns data unique_columns <> [] -> truthy_list unique_columns = true.
Proof. destruct unique_columns; [intro H; now elim H|reflexivity]. Qed.

(** No unique column: no check, no connection. *)
Lemma is_duplicate_no_unique_columns (d : Driver) (self : MysqlDB.db_config)
  (database table_name : string) (data : dict) (w : World d) :
  SqliteDB.is_duplicate database table_name data [] w = (Ret false, w)
  /\ MysqlDB.is_duplicate self table_name data [] w = (Ret false, w).
Proof. split; reflexivity. Qed.

(** The file backend counts over the unique columns present in the row,
    binding their values, and answers whether the count is positive. *)
Lemma sqlite_is_duplicate_spec (d : Driver) (database table_name : string) (data : dict)
  (unique_columns : list string) (w : World d) (b1 b2 : backend d)
  (n : Z) (r : row) (rows : list row) :
  present_columns data unique_columns <> [] ->
  drv_connect d (File database) (env w) = (b1, Done tt) ->
  drv_execute d
    ("SELECT COUNT(*) FROM " ++ table_name ++ " WHERE "
     ++ join " AND " (map (fun col => col ++ " = ?") (present_columns data unique_columns)))
    (map (value_of data) (present_columns data unique_columns)) b1
  = (b2, Done ((VInt n :: r) :: rows)) ->
  SqliteDB.is_duplicate database table_name data unique_columns w =
  (Ret (0 <? n)%Z,
   closed_world w b2
     [Connect (File database);
      Execute
        ("SELECT COUNT(*) FROM " ++ table_name ++ " WHERE "
         ++ join " AND " (map (fun col => col ++ " = ?") (present_columns data unique_columns)))
        (map (value_of data) (present_columns data unique_columns));
      Close (fresh w)]).
Proof.
  intros Hp Hc He. unfold SqliteDB.is_duplicate.
  rewrite (present_columns_nonempty _ _ Hp). cbn [negb].
  unfold bind at 1. rewrite (db_connect_done _ _ _ Hc).
  rewrite unique_conditions_spec. cbn [app].
  assert (Ht : truthy_list (map (fun col => col ++ " = ?")
                              (present_columns data unique_columns)) = true).
  { destruct (present_columns data unique_columns); [now elim Hp|reflexivity]. }
  cbv beta iota zeta. rewrite Ht. cbn [negb]. run. rewrite He. cbn. tidy. reflexivity.
Qed.


(** The server backend runs the statement it built on every declared
    unique column. *)
Lemma mysql_is_duplicate_spec (d : Driver) (self : MysqlDB.db_config) (table_name : string)
  (data : dict) (unique_columns : list string) (w : World d) (b1 b2 : backend d)
  (n : Z) (r : row) (rows : list row) :
  unique_columns <> [] ->
  drv_connect d (MysqlDB.connect self) (env w) = (b1, Done tt) ->
  drv_execute d (MysqlDB.duplicate_query table_name unique_columns)
    (MysqlDB.duplicate_params data unique_columns) b1
  = (b2, Done ((VInt n :: r) :: rows)) ->
  MysqlDB.is_duplicate self table_name data unique_columns w =
  (Ret (0 <? n)%Z,
   closed_world w b2
     [Connect (MysqlDB.connect self);
      Execute (MysqlDB.duplicate_query table_name unique_columns)
        (MysqlDB.duplicate_params data unique_columns);
      Close (fresh w)]).
Proof.
  intros Hu Hc He. unfold MysqlDB.is_duplicate.
  assert (Ht : truthy_list unique_columns = true).
  { destruct unique_columns; [now elim Hu|reflexivity]. }
  rewrite Ht. cbn [negb]. unfold try_connect. rewrite (db_connect_done _ _ _ Hc). run.
  rewrite He. cbn. tidy. reflexivity.
Qed.

(** When the check reports a duplicate, [insert] prints a line and returns
    [False]: the count is the only statement executed, nothing is
    committed. *)
Lemma sqlite_insert_skips_duplicate (d : Driver) (database table_name : string)
  (data : dict) (unique_columns : list string) (w : World d) (b1 b2 : backend d)
  (n : Z) (r : row) (rows : list row) :
  present_columns data unique_columns <> [] ->
  drv_connect d (File database) (env w) = (b1, Done tt) ->
  drv_execute d
    ("SELECT COUNT(*) FROM " ++ table_name ++ " WHERE "
     ++ join " AND " (map (fun col => col ++ " = ?") (present_columns data unique_columns)))
    (map (value_of data) (present_columns data unique_columns)) b1
  = (b2, Done ((VInt n :: r) :: rows)) ->
  (0 < n)%Z ->
  SqliteDB.insert database table_name data (Some unique_columns) w =
  (Ret false,
   closed_world w b2
     [Connect (File database);
      Execute
        ("SELECT COUNT(*) FROM " ++ table_name ++ " WHERE "
         ++ join " AND " (map (fun col => col ++ " = ?") (present_columns data unique_columns)))
        (map (value_of data) (present_columns data unique_columns));
      Close (fresh w);
      Print ("Duplicate record found in '" ++ table_name ++ "'. Insertion skipped.")]).
Proof.
  intros Hp Hc He Hn. unfold SqliteDB.insert.
  assert (Ht : truthy_opt_list (Some unique_columns) = true).
  { destruct unique_columns; [now elim Hp|reflexivity]. }
  rewrite Ht. unfold bind at 1.
  rewrite (sqlite_is_duplicate_spec _ _ _ _ _ _ _ _ _ _ _ Hp Hc He).
  apply Z.ltb_lt in Hn. rewrite Hn. run. tidy. reflexivity.
Qed.

Lemma mysql_insert_skips_duplicate (d : Driver) (self : MysqlDB.db_config)
  (table_name : string) (data : dict) (unique_columns : list string) (w : World d)
  (b1 b2 : backend d) (n : Z) (r : row) (rows : list row) :
  unique_columns <> [] ->
  drv_connect d (MysqlDB.connect self) (env w) = (b1, Done tt) ->
  drv_execute d (MysqlDB.duplicate_query table_name unique_columns)
    (MysqlDB.duplicate_params data unique_columns) b1
  = (b2, Done ((VInt n :: r) :: rows)) ->
  (0 < n)%Z ->
  MysqlDB.insert self table_name data (Some unique_columns) w =
  (Ret false,
   closed_world w b2
     [Connect (MysqlDB.connect self);
      Execute (MysqlDB.duplicate_query table_name unique_columns)
        (MysqlDB.duplicate_params data unique_columns);
      Close (fresh w);
      Print ("Duplicate entry found in '" ++ table_name ++ "'. Insertion skipped.")]).
Proof.
  intros Hu Hc He Hn. unfold MysqlDB.insert.
  assert (Ht : truthy_opt_list (Some unique_columns) = true).
  { destruct unique_columns; [now elim Hu|reflexivity]. }
  rewrite Ht. unfold bind at 1.
  rewrite (mysql_is_duplicate_spec _ _ _ _ _ _ _ _ _ _ _ Hu Hc He).
  apply Z.ltb_lt in Hn. rewrite Hn. run. tidy. reflexivity.
Qed.

(** C2. [MysqlDB.is_duplicate] on a row with an [email] and no [phone],
    unique columns [email] and [phone]: the column present in the row is
    [email] alone, yet the [WHERE] clause names both columns while one
    parameter is bound; the execution fails and the answer is [False],
    although a row with that email exists.  [SqliteDB.is_duplicate]
    counts over [email] alone and answers [True]. *)
Theorem mysql_is_duplicate_counts_absent_column :
  present_columns Sample.new_row ["email"; "phone"] = ["email"]
  /\ MysqlDB.is_duplicate Mock.config "users" Sample.new_row ["email"; "phone"]
       (Mock.start Sample.users) =
     (Ret false,
      closed_world (Mock.start Sample.users) Sample.users
        [Connect (MysqlDB.connect Mock.config);
         Execute "SELECT COUNT(*) FROM users WHERE email = %s AND phone = %s"
           [VStr "a@x.com"];
         Print "Error checking for duplicates in 'users': wrong number of parameters for the statement";
         Close 0])
  /\ SqliteDB.is_duplicate "users.db" "users" Sample.new_row ["email"; "phone"]
       (Mock.start Sample.users) =
     (Ret true,
      closed_world (Mock.start Sample.users) Sample.users
        [Connect (File "users.db");
         Execute "SELECT COUNT(*) FROM users WHERE email = ?" [VStr "a@x.com"];
         Close 0]).
Proof. repeat split; reflexivity. Qed.

(** C1. [MysqlDB.insert] of a row whose email is already in the table,
    with unique columns [email] and [phone] of which the row has [email]
    only: the count over the present column is 1, but the check fails on
    its own statement, so the [INSERT] is executed and committed and the
    call returns [True].  [SqliteDB.insert] skips the same row. *)
Theorem mysql_insert_misses_duplicate :
  snd (Mock.execute "SELECT COUNT(*) FROM users WHERE email = %s" [VStr "a@x.com"]
         Sample.users) = Done [[VInt 1]]
  /\ MysqlDB.insert Mock.config "users" Sample.new_row (Some ["email"; "phone"])
       (Mock.start Sample.users) =
     (Ret true,
      Build_World (d := Mock.driver) Sample.users [] 2
        [Connect (MysqlDB.connect Mock.config);
         Execute "SELECT COUNT(*) FROM users WHERE email = %s AND phone = %s"
           [VStr "a@x.com"];
         Print "Error checking for duplicates in 'users': wrong number of parameters for the statement";
         Close 0;
         Connect (MysqlDB.connect Mock.config);
         Execute "INSERT INTO users (email, name) VALUES (%s, %s)"
           [VStr "a@x.com"; VStr "B"];
         Commit 1;
         Print "Data inserted into 'users' successfully.";
         Close 1])
  /\ SqliteDB.insert "users.db" "users" Sample.new_row (Some ["email"; "phone"])
       (Mock.start Sample.users) =
     (Ret false,
      closed_world (Mock.start Sample.users) Sample.users
        [Connect (File "users.db");
         Execute "SELECT COUNT(*) FROM users WHERE email = ?" [VStr "a@x.com"];
         Close 0;
         Print "Duplicate record found in 'users'. Insertion skipped."]).
Proof. repeat split; reflexivity. Qed.

(** ** Placeholders of the server backend's duplicate check *)








Section MysqlPlaceholders.

Variable d : Driver.

(** The driver substitutes a parameter for every [%s] marker and fails,
    with its own error class, on a statement that has more markers than
    parameters. *)
Hypothesis missing_parameters_fail :
  forall q ps b, List.length ps < count_ps q ->
                 exists msg, snd (drv_execute d q ps b) = Failed msg.


End MysqlPlaceholders.


(** ** Guarded table statements *)

(** [del_table] never lets a driver error out: it prints it. *)
Lemma sqlite_del_table_result (d : Driver) (database table_name : string)
  (w : World d) (b1 b2 : backend d) (r : reply (list row)) :
  drv_connect d (File database) (env w) = (b1, Done tt) ->
  drv_execute d (SqliteDB.drop_query table_name) [] b1 = (b2, r) ->
  SqliteDB.del_table database table_name w =
  (Ret tt,
   closed_world w b2
     [Connect (File database); Execute (SqliteDB.drop_query table_name) [];
      drop_report table_name r; Close (fresh w)]).
Proof.
  intros Hc He. unfold SqliteDB.del_table, try_connect. rewrite (db_connect_done _ _ _ Hc).
  run. rewrite He. destruct r as [rows|msg]; calm; tidy; reflexivity.
Qed.





(** * Further properties of the methods *)

(** ** Connections are given back *)

Lemma snd_finally {d A} (body : M d A) (fin : M d unit) (w : World d) :
  snd (finally body fin w) = snd (fin (snd (body w))).
Proof.
  unfold finally. destruct (body w) as [r w1]. cbn [snd].
  destruct (fin w1) as [[u|e] w2]; reflexivity.
Qed.

Lemma frame_ret {d A} (a : A) : frame_preserving (d := d) (ret a).
Proof. intro w. split; reflexivity. Qed.

Lemma frame_raise {d A} (e : exn) : frame_preserving (d := d) (A := A) (raise e).
Proof. intro w. split; reflexivity. Qed.

Lemma frame_print {d} (msg : string) : frame_preserving (d := d) (print msg).
Proof. intro w. split; reflexivity. Qed.

Lemma frame_execute {d} (conn : nat) (q : string) (ps : list value) :
  frame_preserving (d := d) (cursor_execute conn q ps).
Proof.
  intro w. unfold cursor_execute.
  destruct (drv_execute d q ps (env w)) as [b [rows|msg]]; split; reflexivity.
Qed.

Lemma frame_commit {d} (conn : nat) : frame_preserving (d := d) (conn_commit conn).
Proof.
  intro w. unfold conn_commit.
  destruct (drv_commit d (env w)) as [b [[]|msg]]; split; reflexivity.
Qed.

Lemma frame_bind {d A B} (c : M d A) (k : A -> M d B) :
  frame_preserving c -> (forall a, frame_preserving (k a)) -> frame_preserving (bind c k).
Proof.
  intros Hc Hk w. unfold bind. specialize (Hc w).
  destruct (c w) as [[a|e] w1]; cbn [snd] in *.
  - destruct (Hk a w1) as [Hl Hf]. split; [now rewrite Hl|now rewrite Hf].
  - exact Hc.
Qed.

Lemma frame_try_except {d A} (body : M d A) (handler : string -> M d A) :
  frame_preserving body -> (forall e, frame_preserving (handler e)) ->
  frame_preserving (try_except body handler).
Proof.
  intros Hb Hh w. unfold try_except. specialize (Hb w).
  destruct (body w) as [[a|[msg| | |]] w1]; cbn [snd] in *; try exact Hb.
  destruct (Hh msg w1) as [Hl Hf]. split; [now rewrite Hl|now rewrite Hf].
Qed.

Lemma frame_tuple_get {d A} (t : list A) (i : nat) :
  frame_preserving (d := d) (tuple_get t i).
Proof. unfold tuple_get. destruct (nth_error t i); [apply frame_ret|apply frame_raise]. Qed.

Lemma frame_fetchone_0 {d} (rows : list row) : frame_preserving (d := d) (fetchone_0 rows).
Proof. destruct rows; [apply frame_raise|apply frame_tuple_get]. Qed.

Lemma frame_gt_zero {d} (count : value) : frame_preserving (d := d) (gt_zero count).
Proof. destruct count; first [apply frame_ret|apply frame_raise]. Qed.

Lemma frame_append_each {d A B} (f : A -> M d B) (xs : list A) (acc : list B) :
  (forall x, frame_preserving (f x)) -> frame_preserving (append_each f xs acc).
Proof.
  intro Hf. revert acc. induction xs as [|x xs IH]; intro acc; simpl.
  - apply frame_ret.
  - apply frame_bind; [apply Hf|intro y; apply IH].
Qed.

Lemma frame_column_definition {d} (column : list string) :
  frame_preserving (d := d) (column_definition column).
Proof.
  unfold column_definition.
  repeat (apply frame_bind; [apply frame_tuple_get|intro]). apply frame_ret.
Qed.

Lemma frame_foreign_key_definition {d} (fk : list string) :
  frame_preserving (d := d) (foreign_key_definition fk).
Proof.
  unfold foreign_key_definition.
  repeat (apply frame_bind; [apply frame_tuple_get|intro]). apply frame_ret.
Qed.

Lemma filter_fresh_handle {d} (w : World d) :
  handles_below w ->
  filter (fun c => negb (Nat.eqb c (fresh w))) (live w) = live w.
Proof.
  unfold handles_below. induction (live w) as [|c l IH]; intro H; [reflexivity|].
  inversion H as [|? ? Hc Hl]; subst. simpl.
  destruct (Nat.eqb_spec c (fresh w)); [lia|]. simpl. now rewrite IH.
Qed.

Lemma handles_below_next {d} (w w' : World d) :
  handles_below w -> live w' = live w -> fresh w <= fresh w' -> handles_below w'.
Proof.
  unfold handles_below. intros H Hl Hf. rewrite Hl.
  eapply Forall_impl; [|exact H]. intros c Hc. simpl in Hc. lia.
Qed.

Lemma keeps_of_frame {d A} (m : M d A) : frame_preserving m -> keeps_connections m.
Proof.
  intros Hm w Hw. destruct (Hm w) as [Hl Hf]. split; [exact Hl|].
  apply (handles_below_next w); [exact Hw|exact Hl|lia].
Qed.

Lemma keeps_bind {d A B} (c : M d A) (k : A -> M d B) :
  keeps_connections c -> (forall a, keeps_connections (k a)) ->
  keeps_connections (bind c k).
Proof.
  intros Hc Hk w Hw. unfold bind. specialize (Hc w Hw).
  destruct (c w) as [[a|e] w1]; cbn [snd] in *.
  - destruct Hc as [Hl Hb]. destruct (Hk a w1 Hb) as [Hl' Hb'].
    split; [now rewrite Hl'|exact Hb'].
  - exact Hc.
Qed.


(** A connection opened inside the [try] block whose [finally] closes it. *)
Lemma keeps_try_connect {d A} (t : target) (body : nat -> M d A)
  (handler : string -> M d A) :
  (forall c, frame_preserving (body c)) -> (forall e, frame_preserving (handler e)) ->
  keeps_connections (try_connect t body handler).
Proof.
  intros Hb Hh w Hw. unfold try_connect, db_connect.
  destruct (drv_connect d t (env w)) as [b [[]|msg]].
  - rewrite snd_finally.
    destruct (frame_try_except _ _ (Hb (fresh w)) Hh
                (Build_World b (fresh w :: live w) (S (fresh w)) (log w ++ [Connect t])))
      as [Hl Hf].
    cbn [live fresh] in Hl, Hf. unfold close_var, conn_close. cbn [snd live fresh].
    rewrite Hl, Hf. cbn [filter]. rewrite Nat.eqb_refl. cbn [negb].
    rewrite (filter_fresh_handle w Hw). split; [reflexivity|].
    unfold handles_below. cbn [live fresh].
    eapply Forall_impl; [|exact Hw]. intros c Hc. simpl in Hc. lia.
  - rewrite snd_finally. unfold try_except, raise, close_var. cbn [snd].
    destruct (Hh msg (Build_World b (live w) (fresh w) (log w ++ [Connect t])))
      as [Hl Hf].
    cbn [live fresh] in Hl, Hf. split; [exact Hl|].
    apply (handles_below_next w); [exact Hw|exact Hl|].
    unfold raise. cbn [snd]. rewrite Hf. lia.
Qed.

(** The [try] block of a connection just opened on [w], with its [finally]. *)
Lemma scoped_block_keeps {d A} (w : World d) (b : backend d) (events : list event)
  (body : M d A) (handler : string -> M d A) :
  handles_below w ->
  frame_preserving body -> (forall e, frame_preserving (handler e)) ->
  live (snd (finally (try_except body handler) (conn_close (fresh w))
               (Build_World b (fresh w :: live w) (S (fresh w)) events))) = live w
  /\ handles_below
       (snd (finally (try_except body handler) (conn_close (fresh w))
               (Build_World b (fresh w :: live w) (S (fresh w)) events))).
Proof.
  intros Hw Hb Hh. rewrite snd_finally.
  destruct (frame_try_except _ _ Hb Hh
              (Build_World b (fresh w :: live w) (S (fresh w)) events)) as [Hl Hf].
  cbn [live fresh] in Hl, Hf. unfold conn_close. cbn [snd live fresh].
  rewrite Hl, Hf. cbn [filter]. rewrite Nat.eqb_refl. cbn [negb].
  rewrite (filter_fresh_handle w Hw). split; [reflexivity|].
  unfold handles_below. cbn [live fresh].
  eapply Forall_impl; [|exact Hw]. intros c Hc. simpl in Hc. lia.
Qed.

Ltac frame :=
  repeat first
    [ apply frame_ret | apply frame_raise | apply frame_print | apply frame_execute
    | apply frame_commit | apply frame_tuple_get | apply frame_fetchone_0
    | apply frame_gt_zero | apply frame_column_definition
    | apply frame_foreign_key_definition
    | apply frame_append_each; intro
    | apply frame_bind; [|intro]
    | apply frame_try_except; [|intro] ].

(** X1. Every method of [MysqlDB], on every input and every driver, leaves
    open exactly the connections it found open: the one it opens inside
    its [try] block is closed by the [finally] block whether the statement
    succeeds, the driver fails, building the statement raises, or the
    connection itself could not be opened; [insert] also gives back the
    connection its duplicate check used. *)
Theorem mysql_methods_keep_connections (d : Driver) (self : MysqlDB.db_config) :
  (forall database, keeps_connections (d := d) (MysqlDB.create self database))
  /\ (forall table_name data unique_columns,
        keeps_connections (d := d) (MysqlDB.is_duplicate self table_name data unique_columns))
  /\ (forall table_name columns foreign_keys,
        keeps_connections (d := d) (MysqlDB.table self table_name columns foreign_keys))
  /\ (forall table_name data unique_columns,
        keeps_connections (d := d) (MysqlDB.insert self table_name data unique_columns))
  /\ (forall table_name data condition params,
        keeps_connections (d := d) (MysqlDB.update self table_name data condition params))
  /\ (forall table_name condition params,
        keeps_connections (d := d) (MysqlDB.delete self table_name condition params))
  /\ (forall table_name columns condition params,
        keeps_connections (d := d) (MysqlDB.select self table_name columns condition params))
  /\ keeps_connections (d := d) (MysqlDB.get_tables self)
  /\ (forall table_name, keeps_connections (d := d) (MysqlDB.del_table self table_name)).
Proof.
  assert (Hdup : forall table_name data unique_columns,
             keeps_connections (d := d)
               (MysqlDB.is_duplicate self table_name data unique_columns)).
  { intros. unfold MysqlDB.is_duplicate.
    destruct (negb (truthy_list unique_columns)).
    - apply keeps_of_frame. frame.
    - apply keeps_try_connect; intro; frame. }
  repeat match goal with |- _ /\ _ => split end.
  - intro. apply keeps_try_connect; intro; frame.
  - exact Hdup.
  - intros. apply keeps_try_connect; intro; [|frame].
    apply frame_bind; [unfold comprehension; frame|intro defs].
    apply frame_bind; [|intro; frame].
    destruct (truthy_opt_list foreign_keys); [|frame].
    apply frame_bind; [unfold comprehension; frame|intro; frame].
  - intros. unfold MysqlDB.insert. apply keeps_bind.
    + destruct (truthy_opt_list unique_columns); [apply Hdup|apply keeps_of_frame; frame].
    + intros [|]; [apply keeps_of_frame; frame|].
      apply keeps_try_connect; intro; frame.
  - intros. apply keeps_try_connect; intro; frame.
  - intros. apply keeps_try_connect; intro; frame.
  - intros. apply keeps_try_connect; intro; frame.
  - apply keeps_try_connect; intro; [|frame].
    apply frame_bind; [frame|intro rows]. unfold comprehension. frame.
  - intros. apply keeps_try_connect; intro; frame.
Qed.

Lemma append_each_well_formed {d} (f : list string -> M d string)
  (text : list string -> string) (xs : list (list string)) (acc : list string)
  (w : World d) :
  (forall x w, well_formed_tuple x = true -> f x w = (Ret (text x), w)) ->
  forallb well_formed_tuple xs = true ->
  append_each f xs acc w = (Ret (acc ++ map text xs)%list, w).
Proof.
  intros Hf. revert acc. induction xs as [|x xs IH]; intros acc Hall; simpl.
  - now rewrite app_nil_r.
  - simpl in Hall. apply andb_prop in Hall. destruct Hall as [Hx Hxs].
    unfold bind. rewrite (Hf x w Hx), (IH _ Hxs), <- app_assoc. reflexivity.
Qed.

(** The text of a tuple with at least three entries. *)
Lemma column_definition_well_formed {d} (column : list string) (w : World d) :
  well_formed_tuple column = true ->
  exists text, column_definition column w = (Ret text, w).
Proof.
  destruct column as [|a [|b [|c rest]]]; try discriminate. intros _.
  eexists. reflexivity.
Qed.

Lemma column_definition_short {d} (column : list string) (w : World d) :
  well_formed_tuple column = false ->
  column_definition column w = (Raise IndexError, w).
Proof.
  destruct column as [|a [|b [|c rest]]]; try discriminate; reflexivity.
Qed.


Lemma append_each_columns_short {d} (columns : list (list string)) (acc : list string)
  (w : World d) :
  forallb well_formed_tuple columns = false ->
  append_each column_definition columns acc w = (Raise IndexError, w).
Proof.
  revert acc. induction columns as [|c cs IH]; intros acc Hall; simpl; [discriminate|].
  simpl in Hall. unfold bind. destruct (well_formed_tuple c) eqn:Hc.
  - destruct (column_definition_well_formed c w Hc) as [text Ht]. rewrite Ht.
    apply IH. exact Hall.
  - now rewrite (column_definition_short c w Hc).
Qed.



Lemma bind_eq {d A B} (c : M d A) (k : A -> M d B) (w : World d) :
  bind c k w =
  match c w with
  | (Ret a, w1) => k a w1
  | (Raise e, w1) => (Raise e, w1)
  end.
Proof. reflexivity. Qed.




(** ** A column tuple without its three entries *)

(** X3. When some column tuple has fewer than three entries and the
    connection opens, [table] raises [IndexError] in both backends without
    executing a statement.  The file backend raises between
    [sqlite3.connect] and its [try] block, so its connection stays open;
    the server backend raises inside the [try] block and closes its
    connection first. *)
Theorem table_short_column_raises (d : Driver) :
  (forall database table_name columns foreign_keys (w : World d) b,
     forallb well_formed_tuple columns = false ->
     drv_connect d (File database) (env w) = (b, Done tt) ->
     SqliteDB.table database table_name columns foreign_keys w =
     (Raise IndexError,
      Build_World b (fresh w :: live w) (S (fresh w)) (log w ++ [Connect (File database)])))
  /\
  (forall self table_name columns foreign_keys (w : World d) b,
     forallb well_formed_tuple columns = false ->
     drv_connect d (MysqlDB.connect self) (env w) = (b, Done tt) ->
     MysqlDB.table self table_name columns foreign_keys w =
     (Raise IndexError,
      closed_world w b [Connect (MysqlDB.connect self); Close (fresh w)])).
Proof.
  split.
  - intros database table_name columns foreign_keys w b Hshort Hc.
    unfold SqliteDB.table. rewrite bind_eq, (db_connect_done _ _ _ Hc), bind_eq.
    now rewrite (append_each_columns_short columns [] _ Hshort).
  - intros self table_name columns foreign_keys w b Hshort Hc.
    unfold MysqlDB.table, try_connect. rewrite (db_connect_done _ _ _ Hc).
    unfold finally, try_except, comprehension. rewrite bind_eq.
    rewrite (append_each_columns_short columns [] _ Hshort).
    run. tidy. reflexivity.
Qed.

(** X3, on a table whose second column lacks its constraints. *)
Lemma table_short_column_raises_witness :
  live (snd (SqliteDB.table "employees.db" "employees"
               [["id"; "INTEGER"; "PRIMARY KEY"]; ["email"; "TEXT"]] None
               (Mock.start Sample.employees))) = [0]
  /\ live (snd (MysqlDB.table Mock.config "employees"
                  [["id"; "INTEGER"; "PRIMARY KEY"]; ["email"; "TEXT"]] None
                  (Mock.start Sample.employees))) = [].
Proof.
  split.
  - exact (f_equal (fun r => live (snd r))
             (proj1 (table_short_column_raises Mock.driver)
                "employees.db" "employees"
                [["id"; "INTEGER"; "PRIMARY KEY"]; ["email"; "TEXT"]] None
                (Mock.start Sample.employees)
                (fst (Mock.connect (File "employees.db") Sample.employees))
                eq_refl eq_refl)).
  - exact (f_equal (fun r => live (snd r))
             (proj2 (table_short_column_raises Mock.driver)
                Mock.config "employees"
                [["id"; "INTEGER"; "PRIMARY KEY"]; ["email"; "TEXT"]] None
                (Mock.start Sample.employees) Sample.employees eq_refl eq_refl)).
Defined.

(** ** Writes *)

Ltac use_execute He :=
  match type of He with
  | _ = ?rhs =>
      match goal with
      | |- context [drv_execute ?d ?q ?ps ?b] =>
          replace (drv_execute d q ps b) with rhs by (symmetry; exact He)
      end
  end.

Ltac use_commit Hm :=
  match type of Hm with
  | _ = ?rhs =>
      match goal with
      | |- context [drv_commit ?d ?b] =>
          replace (drv_commit d b) with rhs by (symmetry; exact Hm)
      end
  end.







(** ** The duplicate check *)



(** X8. [MysqlDB.is_duplicate]: with an empty list of unique columns it
    answers [False] without opening a connection; otherwise, once the
    connection opens, it executes one count whose [WHERE] clause names
    every declared unique column, bound to the row's values for the
    columns present, and answers whether the first field of the first row
    is positive.  A driver failure is printed and answered [False]; an
    empty result or a field that is not an integer raises.  The connection
    is closed in every case. *)
Theorem mysql_is_duplicate_outcome (d : Driver) (self : MysqlDB.db_config)
  (table_name : string) (data : dict) :
  (forall w : World d, MysqlDB.is_duplicate self table_name data [] w = (Ret false, w))
  /\
  (forall unique_columns (w : World d) b1 b2 r,
     unique_columns <> [] ->
     drv_connect d (MysqlDB.connect self) (env w) = (b1, Done tt) ->
     drv_execute d (MysqlDB.duplicate_query table_name unique_columns)
       (map (value_of data) (present_columns data unique_columns)) b1 = (b2, r) ->
     MysqlDB.is_duplicate self table_name data unique_columns w =
     (count_answer r,
      closed_world w b2
        (Connect (MysqlDB.connect self)
         :: Execute (MysqlDB.duplicate_query table_name unique_columns)
              (map (value_of data) (present_columns data unique_columns))
         :: error_report ("Error checking for duplicates in '" ++ table_name ++ "': ")
              (reply_error r)
         ++ [Close (fresh w)]))).
Proof.
  split; [reflexivity|].
  intros unique_columns w b1 b2 r Hu Hc He. unfold MysqlDB.is_duplicate.
  assert (Ht : truthy_list unique_columns = true).
  { destruct unique_columns; [now elim Hu|reflexivity]. }
  rewrite Ht. cbn [negb]. unfold try_connect. rewrite (db_connect_done _ _ _ Hc).
  rewrite duplicate_params_spec. run. use_execute He.
  destruct r as [[|[|[| |] fields] rows]|msg]; calm; tidy;
    rewrite ?string_app_assoc; reflexivity.
Qed.

(** X8, on the sample [users] table. *)
Lemma mysql_is_duplicate_outcome_witness :
  fst (MysqlDB.is_duplicate Mock.config "users" Sample.new_row ["email"]
         (Mock.start Sample.users)) = Ret true.
Proof.
  exact (f_equal fst
           (proj2 (mysql_is_duplicate_outcome Mock.driver Mock.config "users"
                     Sample.new_row)
              ["email"] (Mock.start Sample.users) Sample.users Sample.users
              (Done [[VInt 1]]) ltac:(discriminate) eq_refl eq_refl)).
Defined.

(** X9. [insert] with a non-empty list of unique columns is the duplicate
    check followed by a decision: when the check answers [True] the row is
    not inserted, a line is printed and [False] is returned; when it
    answers [False] the call continues exactly as [insert] without unique
    columns, from the world the check left; when the check raises, the
    exception leaves [insert].  Both backends behave so. *)
Theorem insert_follows_duplicate_check (d : Driver) :
  (forall database table_name data unique_columns (w w1 : World d) o,
     unique_columns <> [] ->
     SqliteDB.is_duplicate database table_name data unique_columns w = (o, w1) ->
     SqliteDB.insert database table_name data (Some unique_columns) w =
     match o with
     | Ret true =>
         (Ret false,
          emit (Print ("Duplicate record found in '" ++ table_name
                       ++ "'. Insertion skipped.")) w1)
     | Ret false => SqliteDB.insert database table_name data None w1
     | Raise e => (Raise e, w1)
     end)
  /\
  (forall self table_name data unique_columns (w w1 : World d) o,
     unique_columns <> [] ->
     MysqlDB.is_duplicate self table_name data unique_columns w = (o, w1) ->
     MysqlDB.insert self table_name data (Some unique_columns) w =
     match o with
     | Ret true =>
         (Ret false,
          emit (Print ("Duplicate entry found in '" ++ table_name
                       ++ "'. Insertion skipped.")) w1)
     | Ret false => MysqlDB.insert self table_name data None w1
     | Raise e => (Raise e, w1)
     end).
Proof.
  split.
  - intros database table_name data unique_columns w w1 o Hu Hd.
    unfold SqliteDB.insert at 1.
    assert (Ht : truthy_opt_list (Some unique_columns) = true).
    { destruct unique_columns; [now elim Hu|reflexivity]. }
    rewrite Ht, bind_eq, Hd. destruct o as [[|]|e]; reflexivity.
  - intros self table_name data unique_columns w w1 o Hu Hd.
    unfold MysqlDB.insert at 1.
    assert (Ht : truthy_opt_list (Some unique_columns) = true).
    { destruct unique_columns; [now elim Hu|reflexivity]. }
    rewrite Ht, bind_eq, Hd. destruct o as [[|]|e]; reflexivity.
Qed.

(** X9, on the sample [users] table: the email is taken, the row is
    skipped and the only statement executed is the count. *)
Lemma insert_follows_duplicate_check_witness :
  fst (SqliteDB.insert "users.db" "users" Sample.new_row (Some ["email"])
         (Mock.start Sample.users)) = Ret false
  /\ statements (log (snd (SqliteDB.insert "users.db" "users" Sample.new_row
                             (Some ["email"]) (Mock.start Sample.users))))
     = ["SELECT COUNT(*) FROM users WHERE email = ?"]
  /\ fst (MysqlDB.insert Mock.config "users" Sample.new_row (Some ["email"])
            (Mock.start Sample.users)) = Ret false.
Proof.
  destruct (insert_follows_duplicate_check Mock.driver) as [Hs Hm].
  split; [|split].
  - exact (f_equal fst
             (Hs "users.db" "users" Sample.new_row ["email"] (Mock.start Sample.users)
                _ (Ret true) ltac:(discriminate) eq_refl)).
  - exact (f_equal (fun r => statements (log (snd r)))
             (Hs "users.db" "users" Sample.new_row ["email"] (Mock.start Sample.users)
                _ (Ret true) ltac:(discriminate) eq_refl)).
  - exact (f_equal fst
             (Hm Mock.config "users" Sample.new_row ["email"] (Mock.start Sample.users)
                _ (Ret true) ltac:(discriminate) eq_refl)).
Defined.

(** X10. When every unique column is a key of the row, the two backends
    check the same columns with the same parameters: the columns present
    are all the unique columns, the file backend's conditions are
    [col = ?] for each of them in order, and both backends bind the row's
    values for them in order, one per column. *)
Theorem duplicate_checks_agree_when_all_present (data : dict)
  (unique_columns : list string) :
  (forall col, In col unique_columns -> dict_mem col data = true) ->
  present_columns data unique_columns = unique_columns
  /\ SqliteDB.unique_conditions data unique_columns [] []
     = (map (fun col => col ++ " = ?") unique_columns,
        map (value_of data) unique_columns)
  /\ MysqlDB.duplicate_params data unique_columns = map (value_of data) unique_columns
  /\ List.length (MysqlDB.duplicate_params data unique_columns)
     = List.length unique_columns.
Proof.
  intro Hall.
  assert (Hp : present_columns data unique_columns = unique_columns).
  { unfold present_columns. induction unique_columns as [|c rest IH]; [reflexivity|].
    simpl. rewrite (Hall c (or_introl eq_refl)). f_equal.
    apply IH. intros col Hin. apply Hall. now right. }
  split; [exact Hp|].
  rewrite unique_conditions_spec, duplicate_params_spec, Hp, length_map.
  repeat split.
Qed.

(** X10, on the sample row and its two keys. *)
Lemma duplicate_checks_agree_when_all_present_witness :
  MysqlDB.duplicate_params Sample.new_row ["name"; "email"] = [VStr "B"; VStr "a@x.com"]
  /\ snd (SqliteDB.unique_conditions Sample.new_row ["name"; "email"] [] [])
     = [VStr "B"; VStr "a@x.com"].
Proof.
  destruct (duplicate_checks_agree_when_all_present Sample.new_row ["name"; "email"])
    as (_ & Hs & Hm & _).
  - intros col [<-|[<-|[]]]; reflexivity.
  - split; [exact Hm|exact (f_equal snd Hs)].
Defined.

(** ** Listing and dropping tables, creating the database *)

Lemma first_fields_comprehension {d} (rows : list row) (acc : list value) (w : World d) :
  append_each (fun table => tuple_get table 0) rows acc w =
  (match first_fields rows with
   | Some vs => Ret (acc ++ vs)%list
   | None => Raise IndexError
   end, w).
Proof.
  revert acc. induction rows as [|r rest IH]; intro acc; simpl.
  - now rewrite app_nil_r.
  - rewrite bind_eq. destruct r as [|v fields]; [reflexivity|].
    cbn [tuple_get nth_error ret]. rewrite IH.
    destruct (first_fields rest) as [vs|]; [|reflexivity].
    now rewrite <- app_assoc.
Qed.

(** X11. [get_tables], once the connection opens, executes the backend's
    listing statement with no parameter and closes the connection.  The
    file backend returns the rows as the driver gave them (one tuple per
    table); the server backend returns the first field of each row, and
    raises [IndexError] if a row is empty.  A driver failure is printed
    and answered with the empty list in both. *)
Theorem get_tables_outcome (d : Driver) :
  (forall database (w : World d) b1 b2 r,
     drv_connect d (File database) (env w) = (b1, Done tt) ->
     drv_execute d SqliteDB.tables_query [] b1 = (b2, r) ->
     SqliteDB.get_tables database w =
     (Ret (select_result r),
      closed_world w b2
        (Connect (File database)
         :: Execute SqliteDB.tables_query []
         :: error_report "Failed to execute the query: " (reply_error r)
         ++ [Close (fresh w)])))
  /\
  (forall self (w : World d) b1 b2 r,
     drv_connect d (MysqlDB.connect self) (env w) = (b1, Done tt) ->
     drv_execute d "SHOW TABLES" [] b1 = (b2, r) ->
     MysqlDB.get_tables self w =
     (match r with
      | Failed _ => Ret []
      | Done rows =>
          match first_fields rows with
          | Some names => Ret names
          | None => Raise IndexError
          end
      end,
      closed_world w b2
        (Connect (MysqlDB.connect self)
         :: Execute "SHOW TABLES" []
         :: error_report "Error fetching table names: " (reply_error r)
         ++ [Close (fresh w)]))).
Proof.
  split.
  - intros database w b1 b2 r Hc He.
    unfold SqliteDB.get_tables, try_connect. rewrite (db_connect_done _ _ _ Hc). run.
    use_execute He. destruct r as [rows|msg]; calm; tidy; reflexivity.
  - intros self w b1 b2 r Hc He.
    unfold MysqlDB.get_tables, try_connect. rewrite (db_connect_done _ _ _ Hc).
    unfold finally, try_except. rewrite bind_eq.
    unfold cursor_execute at 1. cbn [env]. use_execute He.
    destruct r as [rows|msg].
    + unfold comprehension. rewrite first_fields_comprehension. cbn [app].
      destruct (first_fields rows); run; tidy; reflexivity.
    + run. tidy. reflexivity.
Qed.

(** X11, on the sample [employees] backend. *)
Lemma get_tables_outcome_witness :
  fst (SqliteDB.get_tables "employees.db" (Mock.start Sample.employees))
  = Ret [[VStr "employees"]]
  /\ fst (MysqlDB.get_tables Mock.config (Mock.start Sample.employees))
     = Ret [VStr "employees"].
Proof.
  split.
  - exact (f_equal fst
             (proj1 (get_tables_outcome Mock.driver) "employees.db"
                (Mock.start Sample.employees)
                (fst (Mock.connect (File "employees.db") Sample.employees))
                (fst (Mock.connect (File "employees.db") Sample.employees))
                (Done [[VStr "employees"]]) eq_refl eq_refl)).
  - exact (f_equal fst
             (proj2 (get_tables_outcome Mock.driver) Mock.config
                (Mock.start Sample.employees) Sample.employees Sample.employees
                (Done [[VStr "employees"]]) eq_refl eq_refl)).
Defined.

(** X12. [del_table], once the connection opens, executes
    [DROP TABLE IF EXISTS <table>] with no parameter, closes the
    connection and returns [None] whether or not the driver failed.  The
    file backend never commits and prints its success line as soon as the
    statement executed; the server backend commits after the statement
    and prints its success line only when the commit succeeded too. *)
Theorem del_table_outcome (d : Driver) :
  (forall database table_name (w : World d) b1 b2 r,
     drv_connect d (File database) (env w) = (b1, Done tt) ->
     drv_execute d ("DROP TABLE IF EXISTS " ++ table_name ++ ";") [] b1 = (b2, r) ->
     SqliteDB.del_table database table_name w =
     (Ret tt,
      closed_world w b2
        [Connect (File database);
         Execute ("DROP TABLE IF EXISTS " ++ table_name ++ ";") [];
         Print match reply_error r with
               | None => "Successfully deleted " ++ table_name ++ " table"
               | Some msg => "Failed to execute the query: " ++ msg
               end;
         Close (fresh w)])
     /\ commits (log (snd (SqliteDB.del_table database table_name w))) = commits (log w))
  /\
  (forall self table_name (w : World d) b1 b2 b3 re rc,
     drv_connect d (MysqlDB.connect self) (env w) = (b1, Done tt) ->
     drv_execute d ("DROP TABLE IF EXISTS " ++ table_name) [] b1 = (b2, re) ->
     drv_commit d b2 = (b3, rc) ->
     MysqlDB.del_table self table_name w =
     (Ret tt,
      closed_world w (write_backend b2 b3 re)
        (Connect (MysqlDB.connect self)
         :: write_trace (fresh w) ("DROP TABLE IF EXISTS " ++ table_name) [] re
         ++ [Print match write_error re rc with
                   | None => "Table '" ++ table_name ++ "' deleted successfully."
                   | Some msg => "Error deleting table '" ++ table_name ++ "': " ++ msg
                   end;
             Close (fresh w)]))).
Proof.
  split.
  - intros database table_name w b1 b2 r Hc He.
    rewrite (sqlite_del_table_result _ _ _ _ _ _ _ Hc He). split.
    + destruct r; reflexivity.
    + cbn [snd closed_world log]. unfold commits. rewrite filter_app, length_app.
      destruct r; cbn; lia.
  - intros self table_name w b1 b2 b3 re rc Hc He Hm.
    unfold MysqlDB.del_table, try_connect. rewrite (db_connect_done _ _ _ Hc). run.
    use_execute He. destruct re as [rows|msg]; calm.
    + use_commit Hm. destruct rc as [[]|msg]; calm; tidy; reflexivity.
    + tidy. reflexivity.
Qed.

(** X12, on the sample [employees] backend. *)
Lemma del_table_outcome_witness :
  log (snd (SqliteDB.del_table "employees.db" "employees" (Mock.start Sample.employees)))
  = [Connect (File "employees.db"); Execute "DROP TABLE IF EXISTS employees;" [];
     Print "Successfully deleted employees table"; Close 0]
  /\ log (snd (MysqlDB.del_table Mock.config "employees" (Mock.start Sample.employees)))
  = [Connect (MysqlDB.connect Mock.config); Execute "DROP TABLE IF EXISTS employees" [];
     Commit 0; Print "Table 'employees' deleted successfully."; Close 0].
Proof.
  split.
  - exact (f_equal (fun r => log (snd r))
             (proj1 (proj1 (del_table_outcome Mock.driver) "employees.db" "employees"
                       (Mock.start Sample.employees)
                       (fst (Mock.connect (File "employees.db") Sample.employees))
                       (Mock.with_catalogue []
                          (fst (Mock.connect (File "employees.db") Sample.employees)))
                       (Done []) eq_refl eq_refl))).
  - exact (f_equal (fun r => log (snd r))
             (proj2 (del_table_outcome Mock.driver) Mock.config "employees"
                (Mock.start Sample.employees) Sample.employees
                (Mock.with_catalogue [] Sample.employees)
                (Mock.with_catalogue [] Sample.employees)
                (Done []) (Done tt) eq_refl eq_refl eq_refl)).
Defined.

(** X13. [MysqlDB.create], once the server connection opens (it is opened
    without selecting a database), executes
    [CREATE DATABASE IF NOT EXISTS <database>] with no parameter, never
    commits, prints its success line when the statement executed and the
    driver's error otherwise, closes the connection and returns [None]. *)
Theorem mysql_create_outcome (d : Driver) (self : MysqlDB.db_config) (database : string)
  (w : World d) (b1 b2 : backend d) (r : reply (list row)) :
  drv_connect d
    (Server (MysqlDB.host self) (MysqlDB.user self) (MysqlDB.password self) None)
    (env w) = (b1, Done tt) ->
  drv_execute d ("CREATE DATABASE IF NOT EXISTS " ++ database) [] b1 = (b2, r) ->
  MysqlDB.create self database w =
  (Ret tt,
   closed_world w b2
     [Connect (Server (MysqlDB.host self) (MysqlDB.user self) (MysqlDB.password self) None);
      Execute ("CREATE DATABASE IF NOT EXISTS " ++ database) [];
      Print match reply_error r with
            | None => "Database '" ++ database ++ "' created successfully."
            | Some msg => "Error creating database '" ++ database ++ "': " ++ msg
            end;
      Close (fresh w)])
  /\ commits (log (snd (MysqlDB.create self database w))) = commits (log w).
Proof.
  intros Hc He.
  assert (Heq : MysqlDB.create self database w =
    (Ret tt,
     closed_world w b2
       [Connect (Server (MysqlDB.host self) (MysqlDB.user self) (MysqlDB.password self) None);
        Execute ("CREATE DATABASE IF NOT EXISTS " ++ database) [];
        Print match reply_error r with
              | None => "Database '" ++ database ++ "' created successfully."
              | Some msg => "Error creating database '" ++ database ++ "': " ++ msg
              end;
        Close (fresh w)])).
  { unfold MysqlDB.create, try_connect. rewrite (db_connect_done _ _ _ Hc). run.
    use_execute He. destruct r as [rows|msg]; calm; tidy; reflexivity. }
  split; [exact Heq|].
  rewrite Heq. cbn [snd closed_world log]. unfold commits.
  rewrite filter_app, length_app. destruct r; cbn; lia.
Qed.

(** X13, on the in-memory driver. *)
Lemma mysql_create_outcome_witness :
  log (snd (MysqlDB.create Mock.config "test_db" (Mock.start Sample.employees))) =
  [Connect (Server "localhost" "root" "secret" None);
   Execute "CREATE DATABASE IF NOT EXISTS test_db" [];
   Print "Database 'test_db' created successfully."; Close 0].
Proof.
  exact (f_equal (fun r => log (snd r))
           (proj1 (mysql_create_outcome Mock.driver Mock.config "test_db"
                     (Mock.start Sample.employees) Sample.employees Sample.employees
                     (Done []) eq_refl eq_refl))).
Defined.

(** ** When the connection cannot be opened *)

(** X14. When the server cannot be reached, every method of [MysqlDB]
    that opens the configured database prints its own error line and then
    raises [UnboundLocalError] from its [finally] block, where [conn] was
    never bound: no statement is executed, no connection is left open, and
    neither [False], [None] nor the empty list is returned.  [insert] with
    unique columns fails in its duplicate check already. *)
Theorem mysql_unreachable_raises (d : Driver) (self : MysqlDB.db_config) (w : World d)
  (b : backend d) (msg : string) :
  drv_connect d (MysqlDB.connect self) (env w) = (b, Failed msg) ->
  (forall table_name data unique_columns,
     unique_columns <> [] ->
     MysqlDB.is_duplicate self table_name data unique_columns w =
     (Raise UnboundLocalError,
      unopened_world w b
        [Connect (MysqlDB.connect self);
         Print ("Error checking for duplicates in '" ++ table_name ++ "': " ++ msg)]))
  /\ (forall table_name columns foreign_keys,
        MysqlDB.table self table_name columns foreign_keys w =
        (Raise UnboundLocalError,
         unopened_world w b
           [Connect (MysqlDB.connect self);
            Print ("Error creating table '" ++ table_name ++ "': " ++ msg)]))
  /\ (forall table_name data unique_columns,
        truthy_opt_list unique_columns = false ->
        MysqlDB.insert self table_name data unique_columns w =
        (Raise UnboundLocalError,
         unopened_world w b
           [Connect (MysqlDB.connect self);
            Print ("Error inserting data into '" ++ table_name ++ "': " ++ msg)]))
  /\ (forall table_name data unique_columns,
        unique_columns <> [] ->
        MysqlDB.insert self table_name data (Some unique_columns) w =
        (Raise UnboundLocalError,
         unopened_world w b
           [Connect (MysqlDB.connect self);
            Print ("Error checking for duplicates in '" ++ table_name ++ "': " ++ msg)]))
  /\ (forall table_name data condition params,
        MysqlDB.update self table_name data condition params w =
        (Raise UnboundLocalError,
         unopened_world w b
           [Connect (MysqlDB.connect self);
            Print ("Error updating table '" ++ table_name ++ "': " ++ msg)]))
  /\ (forall table_name condition params,
        MysqlDB.delete self table_name condition params w =
        (Raise UnboundLocalError,
         unopened_world w b
           [Connect (MysqlDB.connect self);
            Print ("Error deleting data from '" ++ table_name ++ "': " ++ msg)]))
  /\ (forall table_name columns condition params,
        MysqlDB.select self table_name columns condition params w =
        (Raise UnboundLocalError,
         unopened_world w b
           [Connect (MysqlDB.connect self);
            Print ("Error selecting data from '" ++ table_name ++ "': " ++ msg)]))
  /\ MysqlDB.get_tables self w =
     (Raise UnboundLocalError,
      unopened_world w b
        [Connect (MysqlDB.connect self); Print ("Error fetching table names: " ++ msg)])
  /\ (forall table_name,
        MysqlDB.del_table self table_name w =
        (Raise UnboundLocalError,
         unopened_world w b
           [Connect (MysqlDB.connect self);
            Print ("Error deleting table '" ++ table_name ++ "': " ++ msg)])).
Proof.
  intro Hc.
  assert (Hgen : forall A (body : nat -> M d A) (handler : string -> M d A) line,
             (forall w1, snd (handler msg w1) = emit (Print line) w1) ->
             try_connect (MysqlDB.connect self) body handler w =
             (Raise UnboundLocalError,
              unopened_world w b [Connect (MysqlDB.connect self); Print line])).
  { intros A body handler line Hh. unfold try_connect.
    rewrite (db_connect_failed _ _ _ _ Hc).
    unfold finally, try_except, raise, close_var.
    match goal with |- context [handler msg ?w1] =>
      specialize (Hh w1); destruct (handler msg w1) as [o w2] end.
    cbn [snd] in Hh. subst w2. unfold emit, unopened_world. cbn [env live fresh log].
    now rewrite <- app_assoc. }
  assert (Hdup : forall table_name data unique_columns,
     unique_columns <> [] ->
     MysqlDB.is_duplicate self table_name data unique_columns w =
     (Raise UnboundLocalError,
      unopened_world w b
        [Connect (MysqlDB.connect self);
         Print ("Error checking for duplicates in '" ++ table_name ++ "': " ++ msg)])).
  { intros table_name data unique_columns Hu. unfold MysqlDB.is_duplicate.
    destruct unique_columns; [now elim Hu|]. cbn [truthy_list negb].
    apply Hgen. reflexivity. }
  repeat match goal with |- _ /\ _ => split end.
  - exact Hdup.
  - intros. apply Hgen. reflexivity.
  - intros table_name data unique_columns Hu. unfold MysqlDB.insert.
    rewrite Hu, bind_eq. cbv beta iota delta [ret]. apply Hgen. reflexivity.
  - intros table_name data unique_columns Hu.
    assert (Ht : truthy_opt_list (Some unique_columns) = true).
    { destruct unique_columns; [now elim Hu|reflexivity]. }
    unfold MysqlDB.insert. rewrite Ht, bind_eq, (Hdup _ _ _ Hu). reflexivity.
  - intros. apply Hgen. reflexivity.
  - intros. apply Hgen. reflexivity.
  - intros. apply Hgen. reflexivity.
  - apply Hgen. reflexivity.
  - intros. apply Hgen. reflexivity.
Qed.

(** X14, on a server that cannot be reached. *)
Lemma mysql_unreachable_raises_witness :
  MysqlDB.select Mock.config "users" (Cols_str "*") None [] (Mock.start Sample.unreachable) =
  (Raise UnboundLocalError,
   unopened_world (Mock.start Sample.unreachable) Sample.unreachable
     [Connect (MysqlDB.connect Mock.config);
      Print "Error selecting data from 'users': unable to open the database"])
  /\ fst (MysqlDB.insert Mock.config "users" Sample.new_row None
            (Mock.start Sample.unreachable)) = Raise UnboundLocalError.
Proof.
  destruct (mysql_unreachable_raises Mock.driver Mock.config
              (Mock.start Sample.unreachable) Sample.unreachable
              "unable to open the database" eq_refl)
    as (_ & _ & Hins & _ & _ & _ & Hsel & _).
  split.
  - exact (Hsel "users" (Cols_str "*") None []).
  - exact (f_equal fst (Hins "users" Sample.new_row None eq_refl)).
Defined.

(** X15. When the database file cannot be opened, the methods of
    [SqliteDB] that connect before their [try] block ([is_duplicate] with
    unique columns, [table], [insert], [update], [delete], [select]) let
    the driver's error reach the caller: nothing is printed, no statement
    is executed and no default value is returned.  [get_tables] and
    [del_table], which connect inside the [try] block, print the error and
    then raise [UnboundLocalError] from their [finally] block. *)
Theorem sqlite_unopened_database_raises (d : Driver) (database : string) (w : World d)
  (b : backend d) (msg : string) :
  drv_connect d (File database) (env w) = (b, Failed msg) ->
  (forall table_name data unique_columns,
     unique_columns <> [] ->
     SqliteDB.is_duplicate database table_name data unique_columns w =
     (Raise (DriverError msg), unopened_world w b [Connect (File database)]))
  /\ (forall table_name columns foreign_keys,
        SqliteDB.table database table_name columns foreign_keys w =
        (Raise (DriverError msg), unopened_world w b [Connect (File database)]))
  /\ (forall table_name data unique_columns,
        SqliteDB.insert database table_name data unique_columns w =
        (Raise (DriverError msg), unopened_world w b [Connect (File database)]))
  /\ (forall table_name data condition,
        SqliteDB.update database table_name data condition w =
        (Raise (DriverError msg), unopened_world w b [Connect (File database)]))
  /\ (forall table_name condition params,
        SqliteDB.delete database table_name condition params w =
        (Raise (DriverError msg), unopened_world w b [Connect (File database)]))
  /\ (forall table_name columns condition params,
        SqliteDB.select database table_name columns condition params w =
        (Raise (DriverError msg), unopened_world w b [Connect (File database)]))
  /\ SqliteDB.get_tables database w =
     (Raise UnboundLocalError,
      unopened_world w b
        [Connect (File database); Print ("Failed to execute the query: " ++ msg)])
  /\ (forall table_name,
        SqliteDB.del_table database table_name w =
        (Raise UnboundLocalError,
         unopened_world w b
           [Connect (File database); Print ("Failed to execute the query: " ++ msg)])).
Proof.
  intro Hc.
  assert (Hgen : forall A (k : nat -> M d A),
             bind (db_connect (File database)) k w =
             (Raise (DriverError msg), unopened_world w b [Connect (File database)])).
  { intros. rewrite bind_eq, (db_connect_failed _ _ _ _ Hc). reflexivity. }
  assert (Hdup : forall table_name data unique_columns,
     unique_columns <> [] ->
     SqliteDB.is_duplicate database table_name data unique_columns w =
     (Raise (DriverError msg), unopened_world w b [Connect (File database)])).
  { intros table_name data unique_columns Hu. unfold SqliteDB.is_duplicate.
    destruct unique_columns; [now elim Hu|]. cbn [truthy_list negb]. apply Hgen. }
  repeat match goal with |- _ /\ _ => split end.
  - exact Hdup.
  - intros. apply Hgen.
  - intros table_name data unique_columns. unfold SqliteDB.insert.
    destruct unique_columns as [[|u us]|]; cbn [truthy_opt_list].
    + rewrite bind_eq. cbv beta iota delta [ret]. apply Hgen.
    + rewrite bind_eq, (Hdup _ _ (u :: us)); [reflexivity|discriminate].
    + rewrite bind_eq. cbv beta iota delta [ret]. apply Hgen.
  - intros. apply Hgen.
  - intros. apply Hgen.
  - intros. apply Hgen.
  - unfold SqliteDB.get_tables, try_connect. rewrite (db_connect_failed _ _ _ _ Hc).
    run. tidy. reflexivity.
  - intros. unfold SqliteDB.del_table, try_connect.
    rewrite (db_connect_failed _ _ _ _ Hc). run. tidy. reflexivity.
Qed.

(** X15, on a database that cannot be opened. *)
Lemma sqlite_unopened_database_raises_witness :
  SqliteDB.select "users.db" "users" (Cols_str "*") None [] (Mock.start Sample.unreachable) =
  (Raise (DriverError "unable to open the database"),
   unopened_world (Mock.start Sample.unreachable) Sample.unreachable
     [Connect (File "users.db")])
  /\ fst (SqliteDB.get_tables "users.db" (Mock.start Sample.unreachable))
     = Raise UnboundLocalError.
Proof.
  destruct (sqlite_unopened_database_raises Mock.driver "users.db"
              (Mock.start Sample.unreachable) Sample.unreachable
              "unable to open the database" eq_refl)
    as (_ & _ & _ & _ & _ & Hsel & Hget & _).
  split.
  - exact (Hsel "users" (Cols_str "*") None []).
  - exact (f_equal fst Hget).
Defined.

(** ** Methods that never commit *)

Lemma commits_app (l l' : list event) : commits (l ++ l') = commits l + commits l'.
Proof. unfold commits. now rewrite filter_app, length_app. Qed.

Lemma no_commit_ret {d A} (a : A) : no_commit (d := d) (ret a).
Proof. intro w. reflexivity. Qed.

Lemma no_commit_raise {d A} (e : exn) : no_commit (d := d) (A := A) (raise e).
Proof. intro w. reflexivity. Qed.

Lemma no_commit_print {d} (msg : string) : no_commit (d := d) (print msg).
Proof. intro w. unfold print, emit. cbn [snd log]. rewrite commits_app. cbn. lia. Qed.

Lemma no_commit_listdir {d} : no_commit (d := d) os_listdir.
Proof. intro w. reflexivity. Qed.

Lemma no_commit_connect {d} (t : target) : no_commit (d := d) (db_connect t).
Proof.
  intro w. unfold db_connect.
  destruct (drv_connect d t (env w)) as [b [[]|msg]]; cbn [snd log];
    rewrite commits_app; cbn; lia.
Qed.

Lemma no_commit_execute {d} (conn : nat) (q : string) (ps : list value) :
  no_commit (d := d) (cursor_execute conn q ps).
Proof.
  intro w. unfold cursor_execute.
  destruct (drv_execute d q ps (env w)) as [b [rows|msg]]; cbn [snd log];
    rewrite commits_app; cbn; lia.
Qed.

Lemma no_commit_close {d} (conn : nat) : no_commit (d := d) (conn_close conn).
Proof. intro w. unfold conn_close. cbn [snd log]. rewrite commits_app. cbn. lia. Qed.

Lemma no_commit_close_var {d} (conn : option nat) : no_commit (d := d) (close_var conn).
Proof. destruct conn; [apply no_commit_close|apply no_commit_raise]. Qed.

Lemma no_commit_bind {d A B} (c : M d A) (k : A -> M d B) :
  no_commit c -> (forall a, no_commit (k a)) -> no_commit (bind c k).
Proof.
  intros Hc Hk w. rewrite bind_eq. specialize (Hc w).
  destruct (c w) as [[a|e] w1]; cbn [snd] in *; [|exact Hc].
  now rewrite (Hk a w1).
Qed.

Lemma no_commit_try_except {d A} (body : M d A) (handler : string -> M d A) :
  no_commit body -> (forall e, no_commit (handler e)) -> no_commit (try_except body handler).
Proof.
  intros Hb Hh w. unfold try_except. specialize (Hb w).
  destruct (body w) as [[a|[msg| | |]] w1]; cbn [snd] in *; try exact Hb.
  now rewrite (Hh msg w1).
Qed.

Lemma no_commit_finally {d A} (body : M d A) (fin : M d unit) :
  no_commit body -> no_commit fin -> no_commit (finally body fin).
Proof. intros Hb Hf w. now rewrite snd_finally, Hf, Hb. Qed.

Lemma no_commit_try_connect {d A} (t : target) (body : nat -> M d A)
  (handler : string -> M d A) :
  (forall c, no_commit (body c)) -> (forall e, no_commit (handler e)) ->
  no_commit (try_connect t body handler).
Proof.
  intros Hb Hh w. unfold try_connect. pose proof (no_commit_connect t w) as Hc.
  destruct (db_connect t w) as [[c|e] w1]; cbn [snd] in Hc; rewrite <- Hc.
  - apply no_commit_finally;
      [apply no_commit_try_except; [apply Hb|exact Hh]|apply no_commit_close_var].
  - apply no_commit_finally;
      [apply no_commit_try_except; [apply no_commit_raise|exact Hh]
      |apply no_commit_close_var].
Qed.

Lemma no_commit_tuple_get {d A} (t : list A) (i : nat) : no_commit (d := d) (tuple_get t i).
Proof.
  unfold tuple_get. destruct (nth_error t i); [apply no_commit_ret|apply no_commit_raise].
Qed.

Lemma no_commit_fetchone_0 {d} (rows : list row) : no_commit (d := d) (fetchone_0 rows).
Proof. destruct rows; [apply no_commit_raise|apply no_commit_tuple_get]. Qed.

Lemma no_commit_gt_zero {d} (count : value) : no_commit (d := d) (gt_zero count).
Proof. destruct count; first [apply no_commit_ret|apply no_commit_raise]. Qed.

Lemma no_commit_append_each {d A B} (f : A -> M d B) (xs : list A) (acc : list B) :
  (forall x, no_commit (f x)) -> no_commit (append_each f xs acc).
Proof.
  intro Hf. revert acc. induction xs as [|x xs IH]; intro acc; simpl.
  - apply no_commit_ret.
  - apply no_commit_bind; [apply Hf|intro y; apply IH].
Qed.

Ltac quiet :=
  repeat first
    [ apply no_commit_ret | apply no_commit_raise | apply no_commit_print
    | apply no_commit_listdir | apply no_commit_connect | apply no_commit_execute
    | apply no_commit_close | apply no_commit_tuple_get | apply no_commit_fetchone_0
    | apply no_commit_gt_zero
    | apply no_commit_append_each; intro
    | apply no_commit_bind; [|intro]
    | apply no_commit_try_except; [|intro]
    | apply no_commit_finally
    | apply no_commit_try_connect; intro ].

(** X16. The methods that only read, and the ones that create the
    database, never call [commit], on any input and any driver:
    [is_duplicate], [select] and [get_tables] of both backends,
    [SqliteDB.create], [SqliteDB.del_table] and [MysqlDB.create] leave the
    number of commits in the log as they found it. *)
Theorem reading_methods_never_commit (d : Driver) (self : MysqlDB.db_config) :
  (forall database table_name data unique_columns,
     no_commit (d := d) (SqliteDB.is_duplicate database table_name data unique_columns))
  /\ (forall database table_name columns condition params,
        no_commit (d := d) (SqliteDB.select database table_name columns condition params))
  /\ (forall database, no_commit (d := d) (SqliteDB.get_tables database))
  /\ (forall database table_name, no_commit (d := d) (SqliteDB.del_table database table_name))
  /\ (forall db_name, no_commit (d := d) (SqliteDB.create db_name))
  /\ (forall table_name data unique_columns,
        no_commit (d := d) (MysqlDB.is_duplicate self table_name data unique_columns))
  /\ (forall table_name columns condition params,
        no_commit (d := d) (MysqlDB.select self table_name columns condition params))
  /\ no_commit (d := d) (MysqlDB.get_tables self)
  /\ (forall database, no_commit (d := d) (MysqlDB.create self database)).
Proof.
  repeat match goal with |- _ /\ _ => split end.
  - intros. unfold SqliteDB.is_duplicate.
    destruct (negb (truthy_list unique_columns)); [quiet|].
    apply no_commit_bind; [quiet|intro conn]. apply no_commit_finally; [|quiet].
    apply no_commit_try_except; [|intro; quiet].
    destruct (SqliteDB.unique_conditions data unique_columns [] []) as [conditions params].
    destruct (negb (truthy_list conditions)); quiet.
  - intros. unfold SqliteDB.select. quiet.
  - intros. unfold SqliteDB.get_tables. quiet.
  - intros. unfold SqliteDB.del_table. quiet.
  - intros. unfold SqliteDB.create. apply no_commit_bind; [quiet|intro listing].
    destruct (truthy_list _); quiet.
  - intros. unfold MysqlDB.is_duplicate.
    destruct (negb (truthy_list unique_columns)); quiet.
  - intros. unfold MysqlDB.select. quiet.
  - unfold MysqlDB.get_tables, comprehension. quiet.
  - intros. unfold MysqlDB.create. quiet.
Qed.

(** ** Placeholders and parameters *)



Lemma list_sum_zero {A} (f : A -> nat) (l : list A) :
  Forall (fun x => f x = 0) l -> list_sum (map f l) = 0.
Proof. induction 1 as [|x l Hx Hl IH]; simpl; [reflexivity|lia]. Qed.

Lemma list_sum_succ {A} (f g : A -> nat) (l : list A) :
  (forall x, In x l -> g x = S (f x)) ->
  list_sum (map g l) = List.length l + list_sum (map f l).
Proof.
  induction l as [|x l IH]; intro H; simpl; [reflexivity|].
  rewrite (H x (or_introl eq_refl)), IH; [lia|]. intros y Hy. apply H. now right.
Qed.

Lemma list_sum_repeat (n k : nat) : list_sum (repeat k n) = n * k.
Proof. induction n as [|n IH]; simpl; [reflexivity|]. rewrite IH. lia. Qed.


Ltac eval_counts :=
  repeat match goal with
         | |- context [?f ?s] =>
             match f with count_qm => idtac | count_ps => idtac end;
             let v := eval vm_compute in (f s) in
             match v with 0 => idtac | 1 => idtac end;
             progress change (f s) with v
         end.




Lemma count_ps_app_sep (a b : string) :
  starts_with "s" b = false -> count_ps (a ++ b) = count_ps a + count_ps b.
Proof.
  intro Hb. induction a as [|c a IH]; simpl; [reflexivity|].
  rewrite IH.
  assert (Hs : starts_with "s" (a ++ b) = starts_with "s" a).
  { destruct a; simpl; [exact Hb|reflexivity]. }
  rewrite Hs. lia.
Qed.

Lemma count_ps_join (sep : string) (l : list string) :
  (forall x, starts_with "s" (sep ++ x) = false) ->
  (forall x, count_ps (sep ++ x) = count_ps x) ->
  count_ps (join sep l) = list_sum (map count_ps l).
Proof.
  intros Hs Hc. unfold join. induction l as [|x l IH]; [reflexivity|].
  destruct l as [|y l].
  - simpl. lia.
  - change (String.concat sep (x :: y :: l))
      with (x ++ sep ++ String.concat sep (y :: l)).
    rewrite count_ps_app_sep by apply Hs. rewrite Hc, IH. simpl. lia.
Qed.

(** X18. In the server backend, when neither the table name nor a column
    name contains a [%s]: the [INSERT] statement has exactly as many
    markers as values bound; the duplicate check's statement has one
    marker per declared unique column while one value is bound per column
    present in the row; the [UPDATE] statement has one marker per value of
    the row plus the markers of the condition, and the values of the row
    followed by the caller's parameters are bound. *)
Theorem mysql_placeholders_and_parameters (table_name : string) (data : dict)
  (unique_columns : list string) (condition : string) (params : list value) :
  count_ps table_name = 0 ->
  Forall (fun key => count_ps key = 0) (keys data) ->
  Forall (fun col => count_ps col = 0) unique_columns ->
  count_ps (insert_statement "%s" table_name data) = List.length (values data)
  /\ count_ps (MysqlDB.duplicate_query table_name unique_columns)
     = List.length unique_columns
  /\ List.length (MysqlDB.duplicate_params data unique_columns)
     = List.length (present_columns data unique_columns)
  /\ count_ps (update_statement "%s" table_name data condition) + List.length params
     = List.length (values data ++ params) + count_ps condition.
Proof.
  intros Ht Hk Hu.
  assert (Hlen : List.length (keys data) = List.length data)
    by (unfold keys; apply length_map).
  assert (Hval : List.length (values data) = List.length data)
    by (unfold values; apply length_map).
  assert (Hcomma : forall l, count_ps (join ", " l) = list_sum (map count_ps l)).
  { intro l. apply count_ps_join; intro x; reflexivity. }
  assert (Hand : forall l, count_ps (join " AND " l) = list_sum (map count_ps l)).
  { intro l. apply count_ps_join; intro x; reflexivity. }
  assert (Hcond : forall c, count_ps (c ++ " = %s") = S (count_ps c)).
  { intro c. rewrite count_ps_app_sep by reflexivity. eval_counts. lia. }
  split; [|split; [|split]].
  - unfold insert_statement.
    change (count_ps ("INSERT INTO " ++ table_name ++ " (" ++ join ", " (keys data)
                      ++ ") VALUES (" ++ join ", " (times "%s" (List.length data)) ++ ")"))
      with (count_ps (table_name ++ " (" ++ join ", " (keys data)
                      ++ ") VALUES (" ++ join ", " (times "%s" (List.length data)) ++ ")")).
    rewrite count_ps_app_sep, Ht by reflexivity.
    change (count_ps (" (" ++ join ", " (keys data)
                      ++ ") VALUES (" ++ join ", " (times "%s" (List.length data)) ++ ")"))
      with (count_ps (join ", " (keys data)
                      ++ ") VALUES (" ++ join ", " (times "%s" (List.length data)) ++ ")")).
    rewrite count_ps_app_sep, Hcomma, (list_sum_zero _ _ Hk) by reflexivity.
    change (count_ps (") VALUES (" ++ join ", " (times "%s" (List.length data)) ++ ")"))
      with (count_ps (join ", " (times "%s" (List.length data)) ++ ")")).
    rewrite count_ps_app_sep, Hcomma by reflexivity.
    unfold times. rewrite map_repeat, list_sum_repeat, Hval. eval_counts. lia.
  - unfold MysqlDB.duplicate_query, MysqlDB.duplicate_conditions.
    change (count_ps ("SELECT COUNT(*) FROM " ++ table_name ++ " WHERE "
                      ++ join " AND " (map (fun col => col ++ " = %s") unique_columns)))
      with (count_ps (table_name ++ " WHERE "
                      ++ join " AND " (map (fun col => col ++ " = %s") unique_columns))).
    rewrite count_ps_app_sep, Ht by reflexivity.
    change (count_ps (" WHERE "
                      ++ join " AND " (map (fun col => col ++ " = %s") unique_columns)))
      with (count_ps (join " AND " (map (fun col => col ++ " = %s") unique_columns))).
    rewrite Hand, map_map.
    rewrite (list_sum_succ count_ps (fun col => count_ps (col ++ " = %s")))
      by (intros; apply Hcond).
    rewrite (list_sum_zero _ _ Hu). lia.
  - now rewrite duplicate_params_spec, length_map.
  - unfold update_statement.
    change (count_ps ("UPDATE " ++ table_name ++ " SET "
                      ++ join ", " (map (fun key => key ++ " = " ++ "%s") (keys data))
                      ++ " WHERE " ++ condition))
      with (count_ps (table_name ++ " SET "
                      ++ join ", " (map (fun key => key ++ " = " ++ "%s") (keys data))
                      ++ " WHERE " ++ condition)).
    rewrite count_ps_app_sep, Ht by reflexivity.
    change (count_ps (" SET "
                      ++ join ", " (map (fun key => key ++ " = " ++ "%s") (keys data))
                      ++ " WHERE " ++ condition))
      with (count_ps (join ", " (map (fun key => key ++ " = " ++ "%s") (keys data))
                      ++ " WHERE " ++ condition)).
    rewrite count_ps_app_sep, Hcomma, map_map by reflexivity.
    change (count_ps (" WHERE " ++ condition)) with (count_ps condition).
    rewrite (list_sum_succ count_ps (fun key => count_ps (key ++ " = " ++ "%s")))
      by (intros; apply Hcond).
    rewrite (list_sum_zero _ _ Hk), length_app, Hlen, Hval. lia.
Qed.

(** X18, on the sample row. *)
Lemma mysql_placeholders_and_parameters_witness :
  count_ps (insert_statement "%s" "users" Sample.new_row) = 2
  /\ count_ps (MysqlDB.duplicate_query "users" ["email"; "phone"]) = 2
  /\ List.length (MysqlDB.duplicate_params Sample.new_row ["email"; "phone"]) = 1.
Proof.
  destruct (mysql_placeholders_and_parameters "users" Sample.new_row ["email"; "phone"]
              "id = %s" [VInt 1] eq_refl ltac:(repeat constructor)
              ltac:(repeat constructor))
    as (Hi & Hq & Hp & _).
  split; [exact Hi|split; [exact Hq|exact Hp]].
Defined.

(** ** Table creation on well-formed tuples *)

(** X19. [table] given column and foreign-key tuples of three entries
    each, once the connection opens, executes one
    [CREATE TABLE IF NOT EXISTS] statement with no parameter whose list is
    the column definitions followed by the foreign keys, joined by
    [", "] (in the server backend: when there is a column definition or no
    foreign key); it commits only if the statement succeeded, prints the
    driver's error otherwise, closes the connection and returns [None]. *)
Theorem table_statement_and_outcome (d : Driver) :
  (forall database table_name columns foreign_keys (w : World d) b1 b2 b3 re rc,
     drv_connect d (File database) (env w) = (b1, Done tt) ->
     drv_execute d (SqliteDB.create_table_query table_name (fragments columns foreign_keys))
       [] b1 = (b2, re) ->
     drv_commit d b2 = (b3, rc) ->
     SqliteDB.table database table_name (map tuple3 columns)
       (option_map (map tuple3) foreign_keys) w =
     (Ret tt,
      closed_world w (write_backend b2 b3 re)
        (Connect (File database)
         :: write_trace (fresh w)
              (SqliteDB.create_table_query table_name (fragments columns foreign_keys)) [] re
         ++ error_report ("Error creating table '" ++ table_name ++ "': ")
              (write_error re rc)
         ++ [Close (fresh w)])))
  /\
  (forall self table_name columns foreign_keys (w : World d) b1 b2 b3 re rc,
     columns <> [] \/ truthy_opt_list foreign_keys = false ->
     drv_connect d (MysqlDB.connect self) (env w) = (b1, Done tt) ->
     drv_execute d
       ("CREATE TABLE IF NOT EXISTS " ++ table_name ++ " ("
        ++ join ", " (fragments columns foreign_keys) ++ ")") [] b1 = (b2, re) ->
     drv_commit d b2 = (b3, rc) ->
     MysqlDB.table self table_name (map tuple3 columns)
       (option_map (map tuple3) foreign_keys) w =
     (Ret tt,
      closed_world w (write_backend b2 b3 re)
        (Connect (MysqlDB.connect self)
         :: write_trace (fresh w)
              ("CREATE TABLE IF NOT EXISTS " ++ table_name ++ " ("
               ++ join ", " (fragments columns foreign_keys) ++ ")") [] re
         ++ error_report ("Error creating table '" ++ table_name ++ "': ")
              (write_error re rc)
         ++ [Close (fresh w)]))).
Proof.
  split.
  - intros database table_name columns foreign_keys w b1 b2 b3 re rc Hc He Hm.
    rewrite (sqlite_table_unfold _ _ _ _ _ _ _ Hc). run.
    use_execute He. destruct re as [rows|msg]; calm.
    + use_commit Hm. destruct rc as [[]|msg]; calm; tidy;
        rewrite ?string_app_assoc; reflexivity.
    + tidy. rewrite ?string_app_assoc. reflexivity.
  - intros self table_name columns foreign_keys w b1 b2 b3 re rc Hne Hc He Hm.
    unfold MysqlDB.table, try_connect. rewrite (db_connect_done _ _ _ Hc).
    unfold comprehension, bind at 1. unfold finally, try_except, bind at 1.
    rewrite append_each_columns. cbn [app].
    assert (Hfk :
      (if truthy_opt_list (option_map (map tuple3) foreign_keys)
       then
         bind (append_each foreign_key_definition
                 match option_map (map tuple3) foreign_keys with
                 | Some fks => fks
                 | None => []
                 end [])
              (fun fks => ret (join ", " (map column_text columns) ++ ", " ++ join ", " fks))
       else ret (join ", " (map column_text columns)))
        (Build_World b1 (fresh w :: live w) (S (fresh w))
           (log w ++ [Connect (MysqlDB.connect self)]))
      = (Ret (join ", " (fragments columns foreign_keys)),
         Build_World b1 (fresh w :: live w) (S (fresh w))
           (log w ++ [Connect (MysqlDB.connect self)]))).
    { unfold fragments.
      destruct foreign_keys as [[|fk fks]|]; cbn [option_map truthy_opt_list map].
      - now rewrite app_nil_r.
      - change (tuple3 fk :: map tuple3 fks) with (map tuple3 (fk :: fks)).
        unfold bind. rewrite append_each_foreign_keys. cbn [app]. unfold ret.
        destruct Hne as [Hne|Hne]; [|discriminate].
        rewrite join_app; [reflexivity| |discriminate].
        destruct columns; [congruence|discriminate].
      - now rewrite app_nil_r. }
    rewrite Hfk. run.
    use_execute He. destruct re as [rows|msg]; calm.
    + use_commit Hm. destruct rc as [[]|msg]; calm; tidy;
        rewrite ?string_app_assoc; reflexivity.
    + tidy. rewrite ?string_app_assoc. reflexivity.
Qed.

(** X19, on the docstring's [employees] columns. *)
Lemma table_statement_and_outcome_witness :
  statements (log (snd (MysqlDB.table Mock.config "employees"
                          (map tuple3 Sample.employee_columns) None
                          (Mock.start Sample.employees)))) =
  ["CREATE TABLE IF NOT EXISTS employees (id INTEGER PRIMARY KEY AUTOINCREMENT, email TEXT UNIQUE NOT NULL, name TEXT NOT NULL)"]
  /\ fst (SqliteDB.table "employees.db" "employees" (map tuple3 Sample.employee_columns)
            None (Mock.start Sample.employees)) = Ret tt.
Proof.
  split.
  - exact (f_equal (fun r => statements (log (snd r)))
             (proj2 (table_statement_and_outcome Mock.driver) Mock.config "employees"
                Sample.employee_columns None (Mock.start Sample.employees)
                Sample.employees Sample.employees Sample.employees (Done []) (Done tt)
                (or_intror eq_refl) eq_refl eq_refl eq_refl)).
  - exact (f_equal fst
             (proj1 (table_statement_and_outcome Mock.driver) "employees.db" "employees"
                Sample.employee_columns None (Mock.start Sample.employees)
                (fst (Mock.connect (File "employees.db") Sample.employees))
                (fst (Mock.connect (File "employees.db") Sample.employees))
                (fst (Mock.connect (File "employees.db") Sample.employees))
                (Done []) (Done tt) eq_refl eq_refl eq_refl)).
Defined.

(** X1, on a server that cannot be reached and on one that can. *)
Lemma mysql_methods_keep_connections_witness :
  live (snd (MysqlDB.insert Mock.config "users" Sample.new_row (Some ["email"; "phone"])
               (Mock.start Sample.users))) = []
  /\ live (snd (MysqlDB.select Mock.config "users" (Cols_str "*") None []
                  (Mock.start Sample.unreachable))) = [].
Proof.
  destruct (mysql_methods_keep_connections Mock.driver Mock.config)
    as (_ & _ & _ & Hins & _ & _ & Hsel & _).
  split.
  - exact (proj1 (Hins "users" Sample.new_row (Some ["email"; "phone"])
                    (Mock.start Sample.users) (Forall_nil _))).
  - exact (proj1 (Hsel "users" (Cols_str "*") None [] (Mock.start Sample.unreachable)
                    (Forall_nil _))).
Defined.

(** X16, on the sample [users] table. *)
Lemma reading_methods_never_commit_witness :
  commits (log (snd (SqliteDB.is_duplicate "users.db" "users" Sample.new_row ["email"]
                       (Mock.start Sample.users)))) = 0
  /\ commits (log (snd (MysqlDB.get_tables Mock.config (Mock.start Sample.users)))) = 0.
Proof.
  destruct (reading_methods_never_commit Mock.driver Mock.config)
    as (Hdup & _ & _ & _ & _ & _ & _ & Hget & _).
  split.
  - exact (Hdup "users.db" "users" Sample.new_row ["email"] (Mock.start Sample.users)).
  - exact (Hget (Mock.start Sample.users)).
Defined.
